(** * Supply-chain delay dashboard (App.py): a shallow embedding

    App.py is a Streamlit script.  One run of the script is one render
    cycle: it reads the sidebar inputs (the selected page and the uploaded
    file), feature-engineers the uploaded table and renders the selected
    page.  The embedding follows the script top to bottom:

    - a table is what [pd.read_csv] hands to the script: an ordered list
      of named columns, each a list of cells;
    - every statement that can show something or stop the run lives in
      the render monad [M]: the elements shown so far plus either a
      value, [st.stop()] or an uncaught exception;
    - pandas and plotly are libraries outside the repository; their
      behaviour (pandas 2, plotly express 5) is written out as far as the
      script depends on it.  The scalar date parser behind
      [pd.to_datetime] is a parameter of the development ([parse_str],
      [parse_num]); [iso_date] is one instance (calendar dates written
      YYYY-MM-DD) used to run the script on concrete tables.

    Numbers are exact rationals: float64 rounding of prices and means is
    not modelled.  Timestamps are naive (no timezone), counted in
    nanoseconds since the epoch as pandas does.  The order of groups with
    equal mean delay is the one of a stable sort; no statement below depends
    on it. *)

From Stdlib Require Import ZArith QArith Qround String Ascii List Lia.
From stdpp Require Import base option list sorting.
Import ListNotations.

Local Open Scope string_scope.
Local Open Scope list_scope.

(** ** Cells, columns, tables *)

Inductive cell : Type :=
| NaN                 (* missing value of an object or float column *)
| NaT                 (* missing value of a datetime or timedelta column *)
| Str (s : string)    (* a str held by an object column *)
| Num (q : Q)         (* an int64 / float64 number *)
| Ts (ns : Z)         (* Timestamp: nanoseconds since 1970-01-01 *)
| Td (ns : Z).        (* Timedelta: nanoseconds *)

Abbreviation Series := (list cell).
Abbreviation DataFrame := (list (string * list cell)).

(** [df.columns] *)
Definition columns (df : DataFrame) : list string := map fst df.

(** [col in df.columns] *)
Definition has_column (col : string) (df : DataFrame) : bool :=
  existsb (String.eqb col) (columns df).

(** [df[col]] as a lookup; [None] stands for pandas' KeyError. *)
Fixpoint getitem (df : DataFrame) (col : string) : option Series :=
  match df with
  | [] => None
  | (k, v) :: rest => if String.eqb k col then Some v else getitem rest col
  end.

(** [df[col] = s]: an existing column is overwritten where it stands, a new
    one is appended on the right. *)
Fixpoint setitem (df : DataFrame) (col : string) (s : Series) : DataFrame :=
  match df with
  | [] => [(col, s)]
  | (k, v) :: rest =>
      if String.eqb k col then (k, s) :: rest else (k, v) :: setitem rest col s
  end.

(** ** What a render cycle shows *)

Inductive chart_kind := Box | Bar.

Record figure := {
  fig_kind : chart_kind;
  fig_data : DataFrame;
  fig_x : string;
  fig_y : list string;
  fig_color : option string;
  fig_title : string;
  fig_xaxis_title : string;
  fig_yaxis_title : string
}.

Inductive element :=
| Title (s : string)          (* st.title *)
| Markdown (s : string)       (* st.markdown *)
| Error (s : string)          (* st.error *)
| Warning (s : string)        (* st.warning *)
| PlotlyChart (f : figure).   (* st.plotly_chart *)

Definition is_chart (e : element) : bool :=
  match e with PlotlyChart _ => true | _ => false end.

(** ** The render monad *)

Inductive exn :=
| ParserError                        (* pd.to_datetime: value is no date *)
| OverflowError                      (* datetime subtraction leaves int64 *)
| KeyError (col : string)            (* column not found *)
| TypeError                          (* operation not defined on the dtype *)
| AttributeError                     (* .dt on a column that is not datetimelike *)
| ValueError (arg col : string).     (* plotly express: [arg] names no column *)

Inductive halt :=
| Stop                 (* st.stop() *)
| Raise (e : exn).     (* uncaught exception: the script run is aborted *)

Inductive result (A : Type) :=
| Ok (a : A)
| Halt (h : halt).
Arguments Ok {A} a.
Arguments Halt {A} h.

Definition M (A : Type) : Type := (list element * result A)%type.

Definition ret {A} (a : A) : M A := ([], Ok a).

Definition bind {A B} (m : M A) (k : A -> M B) : M B :=
  match m with
  | (out, Ok a) => let (out', r) := k a in (out ++ out', r)
  | (out, Halt h) => (out, Halt h)
  end.

Declare Scope render_scope.
Delimit Scope render_scope with render.
Notation "x <- m ;; k" := (bind m (fun x => k))
  (at level 100, m at next level, right associativity) : render_scope.
Notation "m ;; k" := (bind m (fun _ => k))
  (at level 100, right associativity) : render_scope.
Local Open Scope render_scope.

Definition show (e : element) : M unit := ([e], Ok tt).
Definition raise {A} (e : exn) : M A := ([], Halt (Raise e)).
Definition st_stop {A} : M A := ([], Halt Stop).
Definition st_title (s : string) : M unit := show (Title s).
Definition st_markdown (s : string) : M unit := show (Markdown s).
Definition st_error (s : string) : M unit := show (Error s).
Definition st_warning (s : string) : M unit := show (Warning s).
Definition st_plotly_chart (f : figure) : M unit := show (PlotlyChart f).

(** What was shown, and how the run ended. *)
Definition shown {A} (m : M A) : list element := fst m.
Definition outcome {A} (m : M A) : result A := snd m.

Definition completed {A} (m : M A) : bool :=
  match outcome m with Ok _ => true | Halt _ => false end.

Definition no_chart {A} (m : M A) : bool :=
  forallb (fun e => negb (is_chart e)) (shown m).

(** Apply a scalar operation that may raise to every cell, left to right;
    the first exception aborts. *)
Fixpoint map_cells (f : cell -> M cell) (s : Series) : M Series :=
  match s with
  | [] => ret []
  | c :: rest => c' <- f c ;; rest' <- map_cells f rest ;; ret (c' :: rest')
  end.

(** [df[col]] in the monad. *)
Definition column (df : DataFrame) (col : string) : M Series :=
  match getitem df col with
  | Some s => ret s
  | None => raise (KeyError col)
  end.

(** ** pandas: dates *)

(** What the scalar parser makes of one raw value. *)
Inductive parsed :=
| Unparseable          (* raises *)
| Missing              (* NaT *)
| Stamp (ns : Z).

Definition ns_per_day : Z := 86400000000000.

(** Timedelta values are int64 nanoseconds; the smallest int64 is the NaT
    sentinel. *)
Definition int64_min : Z := - 2 ^ 63.
Definition int64_max : Z := 2 ^ 63 - 1.
Definition in_timedelta_range (d : Z) : bool :=
  (int64_min <? d)%Z && (d <=? int64_max)%Z.

Section Pandas.

(** The library's scalar conversions behind [pd.to_datetime]: of a str,
    and of a number. *)
Variable parse_str : string -> parsed.
Variable parse_num : Q -> parsed.

Definition of_parsed (p : parsed) : M cell :=
  match p with
  | Unparseable => raise ParserError
  | Missing => ret NaT
  | Stamp ns => ret (Ts ns)
  end.

Definition to_datetime_cell (c : cell) : M cell :=
  match c with
  | NaN | NaT => ret NaT
  | Ts ns => ret (Ts ns)
  | Str s => of_parsed (parse_str s)
  | Num q => of_parsed (parse_num q)
  | Td _ => raise TypeError
  end.

(** [pd.to_datetime(series)] with the default [errors="raise"]. *)
Definition to_datetime (s : Series) : M Series := map_cells to_datetime_cell s.

(** Datetime minus datetime, elementwise; NaT propagates. *)
Definition sub_cell (a b : cell) : M cell :=
  match a, b with
  | Ts x, Ts y =>
      if in_timedelta_range (x - y) then ret (Td (x - y)) else raise OverflowError
  | Ts _, NaT | NaT, Ts _ | NaT, NaT => ret NaT
  | _, _ => raise TypeError
  end.

Fixpoint series_sub (a b : Series) : M Series :=
  match a, b with
  | x :: a', y :: b' =>
      d <- sub_cell x y ;; rest <- series_sub a' b' ;; ret (d :: rest)
  | _, _ => ret []
  end.

(** [.dt.days]: the days component of a timedelta, i.e. the floor of the
    difference in days; NaT gives NaN. *)
Definition days_cell (c : cell) : M cell :=
  match c with
  | Td ns => ret (Num (inject_Z (ns / ns_per_day)))
  | NaT => ret NaN
  | _ => raise AttributeError
  end.

Definition dt_days (s : Series) : M Series := map_cells days_cell s.

(** ** Read & feature-engineer (App.py lines 25-40) *)

Definition DELIVERED : string := "Delivered to Client Date".
Definition SCHEDULED : string := "Scheduled Delivery Date".
Definition DATE_COLUMNS : list string := [DELIVERED; SCHEDULED].

(** The [for col in [...]] loop of lines 29-34. *)
Fixpoint parse_date_columns (cols : list string) (df : DataFrame) : M DataFrame :=
  match cols with
  | [] => ret df
  | col :: rest =>
      df' <- (if has_column col df then
                s <- column df col ;;
                s' <- to_datetime s ;;
                ret (setitem df col s')
              else
                st_error ("❌ Missing column: " ++ col) ;;
                st_stop) ;;
      parse_date_columns rest df'
  end.

(** [lambda d: "Early/On-Time" if d <= 0 else "Delayed"]: a comparison
    with NaN is false; anything that is no number cannot be compared with 0. *)
Definition delay_label (d : cell) : M cell :=
  match d with
  | Num q => ret (Str (if Qle_bool q 0 then "Early/On-Time" else "Delayed"))
  | NaN => ret (Str "Delayed")
  | NaT | Str _ | Ts _ | Td _ => raise TypeError
  end.

(** Lines 29-38. *)
Definition feature_engineer (df : DataFrame) : M DataFrame :=
  df <- parse_date_columns DATE_COLUMNS df ;;
  delivered <- column df DELIVERED ;;
  scheduled <- column df SCHEDULED ;;
  diff <- series_sub delivered scheduled ;;
  days <- dt_days diff ;;
  let df := setitem df "delivery_delay" days in
  delay <- column df "delivery_delay" ;;
  labels <- map_cells delay_label delay ;;
  ret (setitem df "Delay Label" labels).

(** Lines 25-40: [file] is the table read from the upload, if any. *)
Definition load (file : option DataFrame) : M (option DataFrame) :=
  match file with
  | Some df => df' <- feature_engineer df ;; ret (Some df')
  | None => ret None
  end.

End Pandas.

(** ** pandas: group means (the Aggregator) *)

(** Equality of group keys: numbers by value, strings by content. *)
Definition cell_eqb (a b : cell) : bool :=
  match a, b with
  | NaN, NaN | NaT, NaT => true
  | Str s, Str t => String.eqb s t
  | Num p, Num q => Qeq_bool p q
  | Ts x, Ts y | Td x, Td y => Z.eqb x y
  | _, _ => false
  end.

Definition is_missing (c : cell) : bool :=
  match c with NaN | NaT => true | _ => false end.

(** Numeric dtype: every cell is a number or NaN. *)
Definition is_numeric (s : Series) : bool :=
  forallb (fun c => match c with Num _ | NaN => true | _ => false end) s.

(** The distinct values of a column in order of first appearance. *)
Fixpoint unique (s : Series) : Series :=
  match s with
  | [] => []
  | c :: rest => c :: List.filter (fun d => negb (cell_eqb c d)) (unique rest)
  end.

(** The order in which groupby lists its keys (sort=True): numbers by
    value, then strings by code point. *)
Definition key_le (a b : cell) : Prop :=
  match a, b with
  | Num p, Num q => Qle_bool p q = true
  | Num _, _ => True
  | Str s, Str t => String.leb s t = true
  | Str _, Num _ => False
  | Str _, _ => True
  | _, (Num _ | Str _) => False
  | _, _ => True
  end.

#[global] Instance key_le_dec : RelDecision key_le.
Proof. intros a b; destruct a, b; simpl; solve_decision. Defined.

(** The group keys: NaN keys are dropped (dropna=True). *)
Definition group_keys (by_col : Series) : Series :=
  merge_sort key_le (unique (List.filter (fun c => negb (is_missing c)) by_col)).

(** The cells of [metric] on the rows whose key is [k]. *)
Definition group_cells (by_col metric : Series) (k : cell) : Series :=
  map snd (List.filter (fun r => cell_eqb (fst r) k) (combine by_col metric)).

Fixpoint numbers (s : Series) : list Q :=
  match s with
  | [] => []
  | Num q :: rest => q :: numbers rest
  | _ :: rest => numbers rest
  end.

Definition Qsum (l : list Q) : Q := fold_right Qplus 0%Q l.

(** [mean] with skipna: the mean of the numbers present, NaN when there is
    none. *)
Definition mean (s : Series) : cell :=
  match numbers s with
  | [] => NaN
  | qs => Num (Qred (Qsum qs / inject_Z (Z.of_nat (length qs))))
  end.

(** The frame [groupby(by)[cols].mean()] returns: one row per key, holding
    the key (the index) and the mean of every selected column. *)
Record Grouped := {
  index_name : string;
  value_columns : list string;
  groups : list (cell * list cell)
}.

(** [df.groupby(by)[cols]]: every selected column must exist. *)
Fixpoint select_columns (df : DataFrame) (cols : list string) : M (list Series) :=
  match cols with
  | [] => ret []
  | c :: rest => s <- column df c ;; ss <- select_columns df rest ;; ret (s :: ss)
  end.

(** [.mean()] on the selection: a column that is not numeric raises. *)
Definition check_numeric (s : Series) : M unit :=
  if is_numeric s then ret tt else raise TypeError.

Fixpoint check_all_numeric (ss : list Series) : M unit :=
  match ss with
  | [] => ret tt
  | s :: rest => check_numeric s ;; check_all_numeric rest
  end.

Definition groupby_mean (df : DataFrame) (by_ : string) (cols : list string) : M Grouped :=
  keys <- column df by_ ;;
  metrics <- select_columns df cols ;;
  check_all_numeric metrics ;;
  ret {| index_name := by_;
         value_columns := cols;
         groups := map (fun k => (k, map (fun m => mean (group_cells keys m k)) metrics))
                       (group_keys keys) |}.

(** Position of a column name in a list of names. *)
Fixpoint position (col : string) (cols : list string) : option nat :=
  match cols with
  | [] => None
  | c :: rest => if String.eqb c col then Some 0 else option_map S (position col rest)
  end.

Definition number_of (c : cell) : option Q :=
  match c with Num q => Some q | _ => None end.

(** Descending order of the sort key, NaN last (na_position="last"). *)
Definition desc (a b : cell) : Prop :=
  match number_of a, number_of b with
  | Some p, Some q => Qle_bool q p = true
  | _, None => True
  | None, Some _ => False
  end.

#[global] Instance desc_dec : RelDecision desc.
Proof. intros a b; unfold desc; destruct (number_of a), (number_of b); solve_decision. Defined.

(** The value a row holds in column number [j]. *)
Definition row_value (j : nat) (r : cell * list cell) : cell := nth j (snd r) NaN.

Definition by_desc (j : nat) (r1 r2 : cell * list cell) : Prop :=
  desc (row_value j r1) (row_value j r2).

#[global] Instance by_desc_dec j : RelDecision (by_desc j).
Proof. intros a b; unfold by_desc; apply _. Defined.

(** [.sort_values(col, ascending=False)]. *)
Definition sort_values_desc (g : Grouped) (col : string) : M Grouped :=
  match position col (value_columns g) with
  | None => raise (KeyError col)
  | Some j =>
      ret {| index_name := index_name g;
             value_columns := value_columns g;
             groups := merge_sort (by_desc j) (groups g) |}
  end.

(** [.head(n)] *)
Definition head (n : nat) (g : Grouped) : Grouped :=
  {| index_name := index_name g;
     value_columns := value_columns g;
     groups := take n (groups g) |}.

(** [.reset_index()]: the index becomes the first column. *)
Definition reset_index (g : Grouped) : DataFrame :=
  (index_name g, map fst (groups g))
    :: imap (fun j c => (c, map (row_value j) (groups g))) (value_columns g).

Definition METRICS : list string := ["delivery_delay"; "Pack Price"; "Line Item Value"].

(** Lines 100-106 and 119-125: the chain up to [.head(10)], and the whole
    chain. *)
Definition top10 (df : DataFrame) (by_ : string) : M Grouped :=
  g <- groupby_mean df by_ METRICS ;;
  g <- sort_values_desc g "delivery_delay" ;;
  ret (head 10 g).

Definition aggregate (df : DataFrame) (by_ : string) : M DataFrame :=
  g <- top10 df by_ ;;
  ret (reset_index g).

(** ** plotly express *)

Definition px_column (df : DataFrame) (arg col : string) : M unit :=
  if has_column col df then ret tt else raise (ValueError arg col).

Definition px_color (df : DataFrame) (color : option string) : M unit :=
  match color with
  | Some col => px_column df "color" col
  | None => ret tt
  end.

(** A figure keeps what decides its content: the data and the columns
    drawn.  Template, colours, bar mode and legend labels are presentation
    only and left out. *)
Definition px_figure (kind : chart_kind) (df : DataFrame) (x : string)
    (y : list string) (color : option string) : figure :=
  {| fig_kind := kind; fig_data := df; fig_x := x; fig_y := y; fig_color := color;
     fig_title := ""; fig_xaxis_title := ""; fig_yaxis_title := "" |}.

(** [px.box(df, x=, y=, color=)]: an argument that names no column of [df]
    raises. *)
Definition px_box (df : DataFrame) (x y : string) (color : option string) : M figure :=
  px_column df "x" x ;;
  px_column df "y" y ;;
  px_color df color ;;
  ret (px_figure Box df x [y] color).

Fixpoint px_columns (df : DataFrame) (arg : string) (cols : list string) : M unit :=
  match cols with
  | [] => ret tt
  | c :: rest => px_column df arg c ;; px_columns df arg rest
  end.

(** [px.bar(df, x=, y=[...], barmode="group")] *)
Definition px_bar (df : DataFrame) (x : string) (y : list string) : M figure :=
  px_column df "x" x ;;
  px_columns df "y" y ;;
  ret (px_figure Bar df x y None).

(** [fig.update_layout(title=, xaxis_title=, yaxis_title=)] *)
Definition update_layout (f : figure) (title xaxis yaxis : string) : figure :=
  {| fig_kind := fig_kind f; fig_data := fig_data f; fig_x := fig_x f;
     fig_y := fig_y f; fig_color := fig_color f;
     fig_title := title; fig_xaxis_title := xaxis; fig_yaxis_title := yaxis |}.

(** ** The pages *)

Definition PAGES : list string :=
  ["Welcome"; "Delay & Pricing Patterns"; "Top Contributors"; "Conclusion & Insights"].

Definition WELCOME_TEXT : string := "
### Why this app?
Explore how delivery delays and pricing factors impact performance across vendors, managers, and shipment modes.

— **Sections** —  
*Delay & Pricing Patterns* → KPI vs delay deep-dives.  
*Top Contributors*         → Worst performers by delay and cost.  
*Conclusion & Insights*    → Key takeaways and next steps.

- Sample Dataset → [link](https://drive.google.com/file/d/1h02g6ObGWiTID990u2pWTw5o3aNEYzSb/view?usp=sharing)
        ".

Definition CONCLUSION_TEXT : string := "
### Key Findings
* **Delivery delays** are concentrated among specific vendors and shipment modes.  
* **High pack prices** often correlate with air shipments and delay risk.  
* **Line item value** does not consistently predict delay, but extreme values appear in both categories.

### Strategic Actions
1. Prioritize delay-prone vendors and shipment modes for intervention.  
2. Use predictive analytics to flag high-risk deliveries.  
3. Optimize freight planning for high-value items.

### Future Exploration
- Can premium shipping reduce delay rates for critical items?  
- Which manager-vendor pairs consistently outperform others?  
- How do seasonal trends affect delay and pricing?
        ".

Definition UPLOAD_WARNING : string := "➡️ Please upload a dataset to view this analysis.".

(** Lines 45-59. *)
Definition page_welcome : M unit :=
  st_title "🚚 Supply Chain Delay & Pricing Analysis" ;;
  st_markdown WELCOME_TEXT.

(** [if df is None: st.warning(...); st.stop()] *)
Definition require_dataset (df : option DataFrame) : M DataFrame :=
  match df with
  | None => st_warning UPLOAD_WARNING ;; st_stop
  | Some d => ret d
  end.

(** Lines 73-76. *)
Definition delay_plot (df : DataFrame) : M unit :=
  fig_delay <- px_box df "Delay Label" "delivery_delay" None ;;
  st_plotly_chart
    (update_layout fig_delay "Delivery Delay Distribution" "Delay Status" "Delay (days)").

(** Lines 78-81. *)
Definition pack_plot (df : DataFrame) : M unit :=
  if has_column "Shipment Mode" df then
    fig_pack <- px_box df "Shipment Mode" "Pack Price" (Some "Delay Label") ;;
    st_plotly_chart
      (update_layout fig_pack "Pack Price by Shipment Mode" "Shipment Mode" "Pack Price")
  else ret tt.

(** Lines 83-85. *)
Definition value_plot (df : DataFrame) : M unit :=
  fig_value <- px_box df "Delay Label" "Line Item Value" (Some "Delay Label") ;;
  st_plotly_chart
    (update_layout fig_value "Line Item Value by Delay Status" "Delay Status" "Line Item Value").

(** Lines 64-85. *)
Definition page_patterns (df : option DataFrame) : M unit :=
  st_title "Delay & Pricing Patterns" ;;
  df <- require_dataset df ;;
  st_markdown "Focus KPIs: **Delivery Delay**, **Pack Price**, **Line Item Value** vs Delay Status." ;;
  delay_plot df ;;
  pack_plot df ;;
  value_plot df.

(** Lines 99-116. *)
Definition vendors_chart (df : DataFrame) : M unit :=
  if has_column "Vendor" df then
    vendors <- aggregate df "Vendor" ;;
    fig_vendors <- px_bar vendors "Vendor" METRICS ;;
    st_plotly_chart
      (update_layout fig_vendors "Top Vendors by Delay / Pack Price / Value" "Vendor" "Avg Value")
  else ret tt.

(** Lines 118-135. *)
Definition managers_chart (df : DataFrame) : M unit :=
  if has_column "Managed By" df then
    managers <- aggregate df "Managed By" ;;
    fig_managers <- px_bar managers "Managed By" METRICS ;;
    st_plotly_chart
      (update_layout fig_managers "Top Managers by Delay / Pack Price / Value" "Manager" "Avg Value")
  else ret tt.

(** Lines 90-135. *)
Definition page_top (df : option DataFrame) : M unit :=
  st_title "Top Contributors to Delay & Cost" ;;
  df <- require_dataset df ;;
  st_markdown "Which vendors, managers, and shipment modes contribute most to delays and pricing issues?" ;;
  vendors_chart df ;;
  managers_chart df.

(** Lines 140-159. *)
Definition page_conclusion : M unit :=
  st_title "Conclusion & Insights" ;;
  st_markdown CONCLUSION_TEXT.

Definition when (b : bool) (m : M unit) : M unit := if b then m else ret tt.

(** One run of the script: [page] is the sidebar selection, [file] the table
    read from the upload (if any). *)
(** Lines 45-159: the four [if page == ...] blocks. *)
Definition render_page (page : string) (df : option DataFrame) : M unit :=
  when (String.eqb page "Welcome") page_welcome ;;
  when (String.eqb page "Delay & Pricing Patterns") (page_patterns df) ;;
  when (String.eqb page "Top Contributors") (page_top df) ;;
  when (String.eqb page "Conclusion & Insights") page_conclusion.

Definition app (parse_str : string -> parsed) (parse_num : Q -> parsed)
    (page : string) (file : option DataFrame) : M unit :=
  df <- load parse_str parse_num file ;;
  render_page page df.

(** ** An instance of the date parser: ISO calendar dates

    [iso_date] reads the ten characters YYYY-MM-DD as midnight of that day
    of the proleptic Gregorian calendar and rejects everything else; the
    empty string is a missing value.  pandas accepts many more formats;
    every theorem that is stated for an arbitrary parser covers them. *)

Definition digit (a : ascii) : option Z :=
  let n := Z.of_N (N_of_ascii a) in
  if (48 <=? n)%Z && (n <=? 57)%Z then Some (n - 48)%Z else None.

Fixpoint number (acc : Z) (s : string) : option Z :=
  match s with
  | EmptyString => Some acc
  | String a rest =>
      match digit a with
      | Some d => number (10 * acc + d) rest
      | None => None
      end
  end.

Definition is_leap (y : Z) : bool :=
  ((y mod 4 =? 0) && negb (y mod 100 =? 0) || (y mod 400 =? 0))%Z.

Definition days_in_month (y m : Z) : Z :=
  if (m =? 2)%Z then (if is_leap y then 29 else 28)
  else if ((m =? 4) || (m =? 6) || (m =? 9) || (m =? 11))%Z then 30
  else 31.

(** Days from 1970-01-01 to the civil date y-m-d. *)
Definition days_from_civil (y m d : Z) : Z :=
  let y' := (if m <=? 2 then y - 1 else y)%Z in
  let era := (y' / 400)%Z in
  let yoe := (y' - era * 400)%Z in
  let doy := ((153 * (if 2 <? m then m - 3 else m + 9) + 2) / 5 + d - 1)%Z in
  let doe := (yoe * 365 + yoe / 4 - yoe / 100 + doy)%Z in
  (era * 146097 + doe - 719468)%Z.

Definition iso_date (s : string) : parsed :=
  if String.eqb s "" then Missing
  else if negb (Nat.eqb (String.length s) 10) then Unparseable
  else if negb (String.eqb (substring 4 1 s) "-" && String.eqb (substring 7 1 s) "-")
  then Unparseable
  else
    match number 0 (substring 0 4 s), number 0 (substring 5 2 s), number 0 (substring 8 2 s) with
    | Some y, Some m, Some d =>
        let ns := (days_from_civil y m d * ns_per_day)%Z in
        if ((1 <=? m) && (m <=? 12) && (1 <=? d) && (d <=? days_in_month y m))%Z
           && in_timedelta_range ns
        then Stamp ns else Unparseable
    | _, _, _ => Unparseable
    end.

(** Numbers are nanoseconds since the epoch (a fraction is cut off). *)
Definition epoch_ns (q : Q) : parsed := Stamp (Qfloor q).

Definition run_app : string -> option DataFrame -> M unit := app iso_date epoch_ns.
Definition engineer : DataFrame -> M DataFrame := feature_engineer iso_date epoch_ns.

(** ** Tables to run the script on *)

Definition shipments : DataFrame :=
  [("Vendor", [Str "ACME"; Str "Globex"; Str "ACME"; Str "Initech"; NaN]);
   ("Shipment Mode", [Str "Air"; Str "Truck"; Str "Air"; NaN; Str "Ocean"]);
   (SCHEDULED, [Str "2021-01-01"; Str "2021-01-03"; Str "2021-02-10";
                Str "2021-03-01"; Str "2021-03-02"]);
   (DELIVERED, [Str "2021-01-03"; Str "2021-01-01"; Str "2021-02-10";
                Str "2021-03-05"; Str "2021-03-03"]);
   ("Pack Price", [Num 10; Num 4; Num (25#2); NaN; Num 3]);
   ("Line Item Value", [Num 100; Num 250; Num 75; Num 40; Num 8])].

Definition shipments_engineered : DataFrame :=
  [("Vendor", [Str "ACME"; Str "Globex"; Str "ACME"; Str "Initech"; NaN]);
   ("Shipment Mode", [Str "Air"; Str "Truck"; Str "Air"; NaN; Str "Ocean"]);
   (SCHEDULED, [Ts 1609459200000000000; Ts 1609632000000000000;
                Ts 1612915200000000000; Ts 1614556800000000000;
                Ts 1614643200000000000]);
   (DELIVERED, [Ts 1609632000000000000; Ts 1609459200000000000;
                Ts 1612915200000000000; Ts 1614902400000000000;
                Ts 1614729600000000000]);
   ("Pack Price", [Num 10; Num 4; Num (25#2); NaN; Num 3]);
   ("Line Item Value", [Num 100; Num 250; Num 75; Num 40; Num 8]);
   ("delivery_delay", [Num 2; Num (-2); Num 0; Num 4; Num 1]);
   ("Delay Label", [Str "Delayed"; Str "Early/On-Time"; Str "Early/On-Time";
                    Str "Delayed"; Str "Delayed"])].

(** Two rows, the second without a delivered date. *)
Definition missing_date_shipments : DataFrame :=
  [(SCHEDULED, [Str "2021-01-01"; Str "2021-01-03"]);
   (DELIVERED, [Str "2021-01-03"; NaN]);
   ("Line Item Value", [Num 100; Num 40])].


(** A scheduled date that is no date. *)
Definition unparseable_shipments : DataFrame :=
  [(DELIVERED, [Str "2021-01-03"; Str "2021-01-01"]);
   (SCHEDULED, [Str "2021-01-01"; Str "next week"])].

(** No scheduled column, and a delivered date that is no date. *)
Definition unparseable_delivered : DataFrame :=
  [(DELIVERED, [Str "next week"])].

(** No scheduled column. *)
Definition delivered_only : DataFrame :=
  [(DELIVERED, [Str "2021-01-03"])].

(** The two date columns and nothing else. *)
Definition delivered_and_scheduled : DataFrame :=
  [(SCHEDULED, [Str "2021-01-01"; Str "2021-01-03"]);
   (DELIVERED, [Str "2021-01-03"; Str "2021-01-01"])].

(** A vendor column, but no price column. *)
Definition vendors_without_price : DataFrame :=
  [("Vendor", [Str "ACME"; Str "Globex"]);
   (SCHEDULED, [Str "2021-01-01"; Str "2021-01-03"]);
   (DELIVERED, [Str "2021-01-03"; Str "2021-01-01"]);
   ("Line Item Value", [Num 100; Num 250])].

(** ** Vocabulary of the statements *)

(** An operation is silent when it shows nothing. *)
Definition silent {A B} (f : A -> M B) : Prop := forall a, shown (f a) = [].

(** The names of a table after [df[col] = s]. *)
Definition with_name (names : list string) (col : string) : list string :=
  if existsb (String.eqb col) names then names else names ++ [col].

(** The whole-day difference of two parsed dates: the floor of (a - b) in
    days, and NaN as soon as one of them is NaT. *)
Definition day_difference (a b : cell) : cell :=
  match a, b with
  | Ts x, Ts y => Num (inject_Z ((x - y) / ns_per_day))
  | _, _ => NaN
  end.

(** [d <= 0] as Python evaluates it on a delay: false on NaN. *)
Definition at_most_zero (d : cell) : Prop :=
  match d with
  | Num q => (q <= 0)%Q
  | _ => False
  end.

(** The table the feature engineer returns, from the input table and the four
    columns it assigns. *)
Definition engineered (df : DataFrame) (d s days labels : Series) : DataFrame :=
  setitem (setitem (setitem (setitem df DELIVERED d) SCHEDULED s)
                   "delivery_delay" days) "Delay Label" labels.




(** The rows [.sort_values("delivery_delay", ascending=False)] returns for a
    table with grouping column [keys] and metric columns [delay], [price],
    [value], and the rows [.head(10)] keeps of them. *)
Definition all_groups (keys delay price value : Series) : list (cell * list cell) :=
  merge_sort (by_desc 0)
    (map (fun k => (k, map (fun m => mean (group_cells keys m k)) [delay; price; value]))
         (group_keys keys)).

Definition top_groups (keys delay price value : Series) : list (cell * list cell) :=
  take 10 (all_groups keys delay price value).

(** Every column of the table has [n] rows. *)
Definition rectangular (n : nat) (df : DataFrame) : Prop :=
  Forall (fun col => length (snd col) = n) df.

(** Lines 100-103 and 119-122: the aggregation chain before [.head(10)]. *)
Definition ranked (df : DataFrame) (by_ : string) : M Grouped :=
  g <- groupby_mean df by_ METRICS ;;
  sort_values_desc g "delivery_delay".



(** The figures the two data pages draw. *)
Definition delay_figure (df : DataFrame) : figure :=
  update_layout (px_figure Box df "Delay Label" ["delivery_delay"] None)
    "Delivery Delay Distribution" "Delay Status" "Delay (days)".

Definition pack_figure (df : DataFrame) : figure :=
  update_layout (px_figure Box df "Shipment Mode" ["Pack Price"] (Some "Delay Label"))
    "Pack Price by Shipment Mode" "Shipment Mode" "Pack Price".

Definition value_figure (df : DataFrame) : figure :=
  update_layout (px_figure Box df "Delay Label" ["Line Item Value"] (Some "Delay Label"))
    "Line Item Value by Delay Status" "Delay Status" "Line Item Value".


(** A computation that shows nothing and never calls [st.stop()]. *)
Definition quiet (A : Type) (m : M A) : Prop :=
  shown m = [] /\ outcome m <> Halt Stop.
Arguments quiet {A} m.

(** A shipment mode column, but no price column. *)
Definition modes_without_price : DataFrame :=
  [("Shipment Mode", [Str "Air"; Str "Truck"]);
   (SCHEDULED, [Str "2021-01-01"; Str "2021-01-03"]);
   (DELIVERED, [Str "2021-01-03"; Str "2021-01-01"]);
   ("Line Item Value", [Num 100; Num 250])].

Definition modes_without_price_engineered : DataFrame :=
  [("Shipment Mode", [Str "Air"; Str "Truck"]);
   (SCHEDULED, [Ts 1609459200000000000; Ts 1609632000000000000]);
   (DELIVERED, [Ts 1609632000000000000; Ts 1609459200000000000]);
   ("Line Item Value", [Num 100; Num 250]);
   ("delivery_delay", [Num 2; Num (-2)]);
   ("Delay Label", [Str "Delayed"; Str "Early/On-Time"])].

Definition vendors_without_price_engineered : DataFrame :=
  [("Vendor", [Str "ACME"; Str "Globex"]);
   (SCHEDULED, [Ts 1609459200000000000; Ts 1609632000000000000]);
   (DELIVERED, [Ts 1609632000000000000; Ts 1609459200000000000]);
   ("Line Item Value", [Num 100; Num 250]);
   ("delivery_delay", [Num 2; Num (-2)]);
   ("Delay Label", [Str "Delayed"; Str "Early/On-Time"])].

(** A header and no rows. *)
Definition header_only : DataFrame :=
  [("Vendor", []); (SCHEDULED, []); (DELIVERED, []);
   ("Pack Price", []); ("Line Item Value", [])].

(** * Properties *)

(** ** The render monad *)

Lemma bind_Ok_inv {A B} (m : M A) (k : A -> M B) out b :
  bind m k = (out, Ok b) ->
  exists o1 a o2, m = (o1, Ok a) /\ k a = (o2, Ok b) /\ out = o1 ++ o2.
Proof.
  destruct m as [o1 [a|h]]; simpl; [|discriminate].
  destruct (k a) as [o2 r] eqn:E. intros [= <- ->]. eauto 6.
Qed.

Lemma bind_ret_l {A B} (a : A) (k : A -> M B) : bind (ret a) k = k a.
Proof. unfold bind, ret. by destruct (k a). Qed.

Lemma map_cells_Ok f s out s' :
  silent f -> map_cells f s = (out, Ok s') ->
  out = [] /\ Forall2 (fun c c' => f c = ret c') s s'.
Proof.
  intros Hf. revert out s'. induction s as [|c s IH]; simpl; intros out s' H.
  - by injection H as <- <-.
  - apply bind_Ok_inv in H as (o1 & c' & o2 & Hc & H & ->).
    apply bind_Ok_inv in H as (o3 & r & o4 & Hr & H & ->).
    injection H as <- <-.
    apply IH in Hr as [-> Hr].
    pose proof (Hf c) as Hs. rewrite Hc in Hs. simpl in Hs. subst o1.
    split; [done|]. by constructor.
Qed.

Lemma map_cells_ret f s s' :
  Forall2 (fun c c' => f c = ret c') s s' -> map_cells f s = ret s'.
Proof.
  induction 1 as [|c c' s s' Hc _ IH]; simpl; [done|].
  by rewrite Hc, bind_ret_l, IH, bind_ret_l.
Qed.

Lemma map_cells_halts f s c :
  silent f -> In c s -> completed (f c) = false ->
  completed (map_cells f s) = false /\ shown (map_cells f s) = [].
Proof.
  intros Hf. induction s as [|x s IH]; simpl; [done|].
  intros Hin Hc. pose proof (Hf x) as Hx.
  destruct (f x) as [o [x'|h]] eqn:E; simpl in Hx; subst o.
  - destruct Hin as [->|Hin]; [by rewrite E in Hc|].
    destruct (IH Hin Hc) as [H1 H2].
    destruct (map_cells f s) as [o [r|h]]; [done|]. simpl in *. by subst.
  - done.
Qed.

(** ** Tables *)

Lemma has_column_getitem col df :
  has_column col df = true <-> exists s, getitem df col = Some s.
Proof.
  unfold has_column, columns. induction df as [|[k v] df IH]; simpl.
  - split; [discriminate|by intros [? ?]].
  - rewrite (String.eqb_sym col k). destruct (String.eqb k col); simpl; [|done].
    split; eauto.
Qed.

Lemma has_column_false col df :
  has_column col df = false <-> getitem df col = None.
Proof.
  pose proof (has_column_getitem col df) as H.
  destruct (has_column col df), (getitem df col) as [s|]; split; try done.
  - intros _. by destruct (proj1 H eq_refl).
  - intros _. assert (false = true) by (apply H; eauto). done.
Qed.

Lemma getitem_setitem_eq df col s : getitem (setitem df col s) col = Some s.
Proof.
  induction df as [|[k v] df IH]; simpl.
  - by rewrite String.eqb_refl.
  - destruct (String.eqb k col) eqn:E; simpl; by rewrite E.
Qed.

Lemma getitem_setitem_ne df col col' s :
  String.eqb col col' = false ->
  getitem (setitem df col s) col' = getitem df col'.
Proof.
  intros Hne. induction df as [|[k v] df IH]; simpl.
  - by rewrite Hne.
  - destruct (String.eqb k col) eqn:E; simpl.
    + apply String.eqb_eq in E as ->. by rewrite Hne.
    + by rewrite IH.
Qed.

Lemma setitem_same df col s : getitem df col = Some s -> setitem df col s = df.
Proof.
  induction df as [|[k v] df IH]; simpl; [done|].
  destruct (String.eqb k col); [by intros [= ->]|].
  intros H. by rewrite IH.
Qed.

Lemma has_column_setitem df col col' s :
  has_column col' (setitem df col s) = has_column col' df || String.eqb col col'.
Proof.
  destruct (String.eqb col col') eqn:E.
  - apply String.eqb_eq in E as ->. rewrite orb_true_r.
    apply has_column_getitem. rewrite getitem_setitem_eq. eauto.
  - rewrite orb_false_r.
    destruct (has_column col' df) eqn:H.
    + apply has_column_getitem. rewrite getitem_setitem_ne by done.
      by apply has_column_getitem.
    + apply has_column_false. rewrite getitem_setitem_ne by done.
      by apply has_column_false.
Qed.

Lemma columns_setitem df col s :
  columns (setitem df col s) = with_name (columns df) col.
Proof.
  unfold with_name, columns. induction df as [|[k v] df IH]; simpl; [done|].
  rewrite (String.eqb_sym col k). destruct (String.eqb k col); simpl; [done|].
  rewrite IH. by destruct (existsb _ _).
Qed.

Lemma column_ret df col s : getitem df col = Some s -> column df col = ret s.
Proof. unfold column. by intros ->. Qed.

Lemma column_Ok df col out s :
  column df col = (out, Ok s) -> out = [] /\ getitem df col = Some s.
Proof. unfold column. destruct (getitem df col); by intros [= <- <-]. Qed.

(** ** Dates and the derived columns *)

Section DateProperties.

Variable parse_str : string -> parsed.
Variable parse_num : Q -> parsed.

Lemma of_parsed_silent : silent of_parsed.
Proof. by intros []. Qed.

Lemma to_datetime_cell_silent : silent (to_datetime_cell parse_str parse_num).
Proof. intros []; simpl; try done; apply of_parsed_silent. Qed.

Lemma days_cell_silent : silent days_cell.
Proof. by intros []. Qed.

Lemma delay_label_silent : silent delay_label.
Proof. by intros []. Qed.

Lemma sub_cell_silent a b : shown (sub_cell a b) = [].
Proof. destruct a, b; simpl; try done. by destruct (in_timedelta_range _). Qed.

(** A converted cell is a timestamp or NaT, and converting it again gives
    it back. *)
Lemma to_datetime_cell_fixed c c' :
  to_datetime_cell parse_str parse_num c = ret c' -> to_datetime_cell parse_str parse_num c' = ret c'.
Proof.
  destruct c; simpl; try by intros [= <-].
  - destruct (parse_str s); simpl; by intros [= <-].
  - destruct (parse_num q); simpl; by intros [= <-].
Qed.

Lemma to_datetime_fixed s s' : to_datetime parse_str parse_num s = ret s' -> to_datetime parse_str parse_num s' = ret s'.
Proof.
  intros H. apply map_cells_Ok in H as [_ H]; [|apply to_datetime_cell_silent].
  apply map_cells_ret. induction H; constructor; eauto using to_datetime_cell_fixed.
Qed.

Lemma series_sub_Ok a b out r :
  series_sub a b = (out, Ok r) ->
  out = [] /\ length r = Nat.min (length a) (length b) /\
  forall i x y, a !! i = Some x -> b !! i = Some y ->
    exists d, r !! i = Some d /\ sub_cell x y = ret d.
Proof.
  revert b out r. induction a as [|x a IH]; intros [|y b] out r; simpl;
    try (intros [= <- <-]; split_and!; [done..|]; intros [|i] ??; simpl; done).
  intros H.
  apply bind_Ok_inv in H as (o1 & d & o2 & Hd & H & ->).
  apply bind_Ok_inv in H as (o3 & rest & o4 & Hr & H & ->).
  injection H as <- <-.
  apply IH in Hr as (-> & Hlen & Hr).
  pose proof (sub_cell_silent x y) as Hs. rewrite Hd in Hs. simpl in Hs. subst o1.
  split_and!; [done|simpl; by rewrite Hlen|].
  intros [|i] x' y'; simpl.
  - intros [= <-] [= <-]. eauto.
  - apply Hr.
Qed.

Lemma parse_date_columns_Ok df out df1 :
  parse_date_columns parse_str parse_num DATE_COLUMNS df = (out, Ok df1) ->
  exists d0 s0 d s,
    out = [] /\ getitem df DELIVERED = Some d0 /\ getitem df SCHEDULED = Some s0 /\
    to_datetime parse_str parse_num d0 = ret d /\ to_datetime parse_str parse_num s0 = ret s /\
    df1 = setitem (setitem df DELIVERED d) SCHEDULED s.
Proof.
  unfold DATE_COLUMNS. cbn [parse_date_columns]. intros H.
  apply bind_Ok_inv in H as (o1 & dfa & o2 & Ha & H & ->).
  apply bind_Ok_inv in H as (o3 & dfb & o4 & Hb & H & ->).
  injection H as <- <-.
  destruct (has_column DELIVERED df); [|discriminate].
  destruct (has_column SCHEDULED dfa); [|discriminate].
  apply bind_Ok_inv in Ha as (? & d0 & ? & Hd0 & Ha & ->).
  apply bind_Ok_inv in Ha as (? & d & ? & Hd & Ha & ->).
  injection Ha as <- <-.
  apply bind_Ok_inv in Hb as (? & s0 & ? & Hs0 & Hb & ->).
  apply bind_Ok_inv in Hb as (? & s & ? & Hs & Hb & ->).
  injection Hb as <- <-.
  apply column_Ok in Hd0 as [-> Hd0]. apply column_Ok in Hs0 as [-> Hs0].
  rewrite getitem_setitem_ne in Hs0 by reflexivity.
  pose proof Hd as Hd'. pose proof Hs as Hs'.
  apply map_cells_Ok in Hd' as [-> _]; [|apply to_datetime_cell_silent].
  apply map_cells_Ok in Hs' as [-> _]; [|apply to_datetime_cell_silent].
  exists d0, s0, d, s. by split_and!.
Qed.

(** Success of the feature engineer, step by step. *)
Lemma feature_engineer_Ok df out df' :
  feature_engineer parse_str parse_num df = (out, Ok df') ->
  exists d0 s0 d s diff days labels,
    out = [] /\
    getitem df DELIVERED = Some d0 /\ getitem df SCHEDULED = Some s0 /\
    to_datetime parse_str parse_num d0 = ret d /\ to_datetime parse_str parse_num s0 = ret s /\
    series_sub d s = ret diff /\ dt_days diff = ret days /\
    map_cells delay_label days = ret labels /\
    df' = engineered df d s days labels.
Proof.
  unfold feature_engineer. intros H.
  apply bind_Ok_inv in H as (o1 & df1 & ? & H1 & H & ->).
  apply parse_date_columns_Ok in H1 as (d0 & s0 & d & s & -> & Hd0 & Hs0 & Hd & Hs & ->).
  apply bind_Ok_inv in H as (? & d' & ? & Hd' & H & ->).
  apply column_Ok in Hd' as [-> Hd'].
  rewrite getitem_setitem_ne, getitem_setitem_eq in Hd' by reflexivity.
  injection Hd' as <-.
  apply bind_Ok_inv in H as (? & s' & ? & Hs' & H & ->).
  apply column_Ok in Hs' as [-> Hs'].
  rewrite getitem_setitem_eq in Hs'. injection Hs' as <-.
  apply bind_Ok_inv in H as (? & diff & ? & Hdiff & H & ->).
  pose proof Hdiff as Hdiff'. apply series_sub_Ok in Hdiff' as (-> & _).
  apply bind_Ok_inv in H as (? & days & ? & Hdays & H & ->).
  pose proof Hdays as Hdays'.
  apply map_cells_Ok in Hdays' as [-> _]; [|apply days_cell_silent].
  apply bind_Ok_inv in H as (? & delay & ? & Hdelay & H & ->).
  apply column_Ok in Hdelay as [-> Hdelay].
  rewrite getitem_setitem_eq in Hdelay. injection Hdelay as <-.
  apply bind_Ok_inv in H as (? & labels & ? & Hlabels & H & ->).
  pose proof Hlabels as Hlabels'.
  apply map_cells_Ok in Hlabels' as [-> _]; [|apply delay_label_silent].
  injection H as <- <-.
  exists d0, s0, d, s, diff, days, labels. by split_and!.
Qed.

Lemma feature_engineer_ret df d0 s0 d s diff days labels :
  getitem df DELIVERED = Some d0 -> getitem df SCHEDULED = Some s0 ->
  to_datetime parse_str parse_num d0 = ret d -> to_datetime parse_str parse_num s0 = ret s ->
  series_sub d s = ret diff -> dt_days diff = ret days ->
  map_cells delay_label days = ret labels ->
  feature_engineer parse_str parse_num df = ret (engineered df d s days labels).
Proof.
  intros Hd0 Hs0 Hd Hs Hdiff Hdays Hlabels.
  unfold feature_engineer, DATE_COLUMNS.
  cbn [parse_date_columns].
  rewrite (proj2 (has_column_getitem DELIVERED df)) by eauto.
  rewrite (column_ret _ _ _ Hd0), bind_ret_l.
  rewrite Hd, !bind_ret_l.
  rewrite has_column_setitem, (proj2 (has_column_getitem SCHEDULED df)) by eauto.
  cbn [orb].
  rewrite (column_ret _ SCHEDULED s0) by (by rewrite getitem_setitem_ne).
  rewrite bind_ret_l. rewrite Hs, !bind_ret_l.
  rewrite (column_ret _ DELIVERED d)
    by (by rewrite getitem_setitem_ne, getitem_setitem_eq).
  rewrite bind_ret_l.
  rewrite (column_ret _ SCHEDULED s) by apply getitem_setitem_eq.
  rewrite bind_ret_l, Hdiff, bind_ret_l, Hdays, bind_ret_l.
  rewrite (column_ret _ "delivery_delay" days) by apply getitem_setitem_eq.
  by rewrite bind_ret_l, Hlabels, bind_ret_l.
Qed.

Lemma getitem_engineered_delay df d s days labels :
  getitem (engineered df d s days labels) "delivery_delay" = Some days.
Proof.
  unfold engineered. rewrite getitem_setitem_ne by reflexivity.
  apply getitem_setitem_eq.
Qed.

Lemma getitem_engineered_label df d s days labels :
  getitem (engineered df d s days labels) "Delay Label" = Some labels.
Proof. apply getitem_setitem_eq. Qed.

Lemma getitem_engineered_delivered df d s days labels :
  getitem (engineered df d s days labels) DELIVERED = Some d.
Proof.
  unfold engineered. rewrite !getitem_setitem_ne by reflexivity.
  apply getitem_setitem_eq.
Qed.

Lemma getitem_engineered_scheduled df d s days labels :
  getitem (engineered df d s days labels) SCHEDULED = Some s.
Proof.
  unfold engineered. rewrite !getitem_setitem_ne by reflexivity.
  apply getitem_setitem_eq.
Qed.

Lemma getitem_engineered_other df d s days labels col :
  ~ In col [DELIVERED; SCHEDULED; "delivery_delay"; "Delay Label"] ->
  getitem (engineered df d s days labels) col = getitem df col.
Proof.
  intros Hcol. unfold engineered.
  rewrite !getitem_setitem_ne; [done|apply String.eqb_neq; intros <-; apply Hcol; simpl; tauto..].
Qed.

(** The days component of a difference of two converted cells. *)
Lemma days_of_difference a b diff days :
  sub_cell a b = ret diff -> days_cell diff = ret days -> days = day_difference a b.
Proof.
  destruct a, b; simpl; try discriminate; try (intros [= <-]; simpl; by intros [= <-]).
  destruct (in_timedelta_range _); [|discriminate].
  intros [= <-]. simpl. by intros [= <-].
Qed.

(** Row by row: the delay is the day difference of the two converted dates,
    and the label is computed from that delay. *)
Lemma engineered_rows df out df' :
  feature_engineer parse_str parse_num df = (out, Ok df') ->
  exists d0 s0 delay labels,
    getitem df DELIVERED = Some d0 /\ getitem df SCHEDULED = Some s0 /\
    getitem df' "delivery_delay" = Some delay /\
    getitem df' "Delay Label" = Some labels /\
    length delay = Nat.min (length d0) (length s0) /\
    forall i cd cs, d0 !! i = Some cd -> s0 !! i = Some cs ->
      exists d s l,
        to_datetime_cell parse_str parse_num cd = ret d /\
        to_datetime_cell parse_str parse_num cs = ret s /\
        delay !! i = Some (day_difference d s) /\
        labels !! i = Some l /\ delay_label (day_difference d s) = ret l.
Proof.
  intros H.
  apply feature_engineer_Ok in H
    as (d0 & s0 & d & s & diff & days & labels
        & -> & Hd0 & Hs0 & Hd & Hs & Hdiff & Hdays & Hlabels & ->).
  apply map_cells_Ok in Hd as [_ Hd]; [|apply to_datetime_cell_silent].
  apply map_cells_Ok in Hs as [_ Hs]; [|apply to_datetime_cell_silent].
  apply series_sub_Ok in Hdiff as (_ & Hlen & Hdiff).
  apply map_cells_Ok in Hdays as [_ Hdays]; [|apply days_cell_silent].
  apply map_cells_Ok in Hlabels as [_ Hlabels]; [|apply delay_label_silent].
  exists d0, s0, days, labels.
  split_and!; [done|done|apply getitem_engineered_delay|apply getitem_engineered_label| |].
  - rewrite <- (Forall2_length _ _ _ Hdays), Hlen.
    by rewrite (Forall2_length _ _ _ Hd), (Forall2_length _ _ _ Hs).
  - intros i cd cs Hcd Hcs.
    destruct (Forall2_lookup_l _ _ _ _ _ Hd Hcd) as (x & Hx & Hcx).
    destruct (Forall2_lookup_l _ _ _ _ _ Hs Hcs) as (y & Hy & Hcy).
    destruct (Hdiff i x y Hx Hy) as (dc & Hdc & Hsub).
    destruct (Forall2_lookup_l _ _ _ _ _ Hdays Hdc) as (n & Hn & Hdn).
    destruct (Forall2_lookup_l _ _ _ _ _ Hlabels Hn) as (l & Hl & Hnl).
    rewrite (days_of_difference _ _ _ _ Hsub Hdn) in Hn, Hnl.
    exists x, y, l. by split_and!.
Qed.

Lemma delay_label_spec d l :
  delay_label d = ret l ->
  exists s, l = Str s /\ (s = "Early/On-Time" <-> at_most_zero d) /\
            (~ at_most_zero d -> s = "Delayed").
Proof.
  destruct d; simpl; try discriminate; intros [= <-].
  - exists "Delayed". split_and!; [done| |done]. split; [discriminate|done].
  - destruct (Qle_bool q 0) eqn:E.
    + apply Qle_bool_iff in E. eexists. split_and!; [done|done|done].
    + assert (~ (q <= 0)%Q) by (rewrite <- Qle_bool_iff; congruence).
      eexists. split_and!; [done| |done]. split; [discriminate|done].
Qed.

(** C2. For every row of the table the feature engineer returns, the
    Delay Label is "Early/On-Time" exactly when the row's delivery_delay
    is at most 0, and "Delayed" otherwise (a NaN delay is not at most 0). *)
Theorem delay_label_iff_delay_at_most_zero df out df' :
  feature_engineer parse_str parse_num df = (out, Ok df') ->
  exists delay labels,
    getitem df' "delivery_delay" = Some delay /\
    getitem df' "Delay Label" = Some labels /\
    length labels = length delay /\
    forall i d, delay !! i = Some d ->
      exists l, labels !! i = Some (Str l) /\
                (l = "Early/On-Time" <-> at_most_zero d) /\
                (~ at_most_zero d -> l = "Delayed").
Proof.
  intros H.
  apply feature_engineer_Ok in H
    as (d0 & s0 & d & s & diff & days & labels
        & -> & Hd0 & Hs0 & Hd & Hs & Hdiff & Hdays & Hlabels & ->).
  apply map_cells_Ok in Hlabels as [_ Hlabels]; [|apply delay_label_silent].
  exists days, labels.
  split_and!; [apply getitem_engineered_delay|apply getitem_engineered_label| |].
  - symmetry. eapply Forall2_length, Hlabels.
  - intros i c Hc.
    destruct (Forall2_lookup_l _ _ _ _ _ Hlabels Hc) as (l & Hl & Hcl).
    apply delay_label_spec in Hcl as (str & -> & Hiff & Hno). eauto.
Qed.

(** C9. Feature engineering is idempotent: run on its own output it
    returns that output unchanged. *)
Theorem feature_engineer_idempotent df out df' :
  feature_engineer parse_str parse_num df = (out, Ok df') ->
  feature_engineer parse_str parse_num df' = ([], Ok df').
Proof.
  intros H.
  apply feature_engineer_Ok in H
    as (d0 & s0 & d & s & diff & days & labels
        & -> & Hd0 & Hs0 & Hd & Hs & Hdiff & Hdays & Hlabels & ->).
  set (df' := engineered df d s days labels).
  rewrite (feature_engineer_ret df' d s d s diff days labels);
    try done; eauto using to_datetime_fixed,
      getitem_engineered_delivered, getitem_engineered_scheduled.
  unfold ret. do 2 f_equal. unfold engineered at 1.
  rewrite (setitem_same df' DELIVERED) by apply getitem_engineered_delivered.
  rewrite (setitem_same df' SCHEDULED) by apply getitem_engineered_scheduled.
  rewrite (setitem_same df' "delivery_delay") by apply getitem_engineered_delay.
  apply setitem_same, getitem_engineered_label.
Qed.

Lemma with_name_present names col :
  existsb (String.eqb col) names = true -> with_name names col = names.
Proof. unfold with_name. by intros ->. Qed.

Lemma with_name_new names col :
  existsb (String.eqb col) names = false -> with_name names col = names ++ [col].
Proof. unfold with_name. by intros ->. Qed.

Lemma columns_engineered df d0 s0 d s days labels :
  getitem df DELIVERED = Some d0 -> getitem df SCHEDULED = Some s0 ->
  columns (engineered df d s days labels)
  = with_name (with_name (columns df) "delivery_delay") "Delay Label".
Proof.
  intros Hd0 Hs0. unfold engineered. rewrite !columns_setitem.
  rewrite (with_name_present (columns df) DELIVERED)
    by (apply has_column_getitem; eauto).
  rewrite (with_name_present (columns df) SCHEDULED)
    by (apply has_column_getitem; eauto).
  done.
Qed.

(** C8, amended. The feature engineer returns the input table with the two
    date columns replaced by their converted values and the columns
    delivery_delay and Delay Label assigned: every other column keeps its
    values, every column keeps its position, and the two derived columns
    are appended on the right when the input has no column of that name. *)
Theorem feature_engineer_frame df out df' :
  feature_engineer parse_str parse_num df = (out, Ok df') ->
  (forall col, ~ In col [DELIVERED; SCHEDULED; "delivery_delay"; "Delay Label"] ->
     getitem df' col = getitem df col) /\
  (forall col, In col DATE_COLUMNS ->
     exists s0 s, getitem df col = Some s0 /\ getitem df' col = Some s /\
       Forall2 (fun c c' => to_datetime_cell parse_str parse_num c = ret c') s0 s) /\
  columns df' = with_name (with_name (columns df) "delivery_delay") "Delay Label" /\
  (has_column "delivery_delay" df = false -> has_column "Delay Label" df = false ->
     columns df' = columns df ++ ["delivery_delay"; "Delay Label"]).
Proof.
  intros H.
  apply feature_engineer_Ok in H
    as (d0 & s0 & d & s & diff & days & labels
        & -> & Hd0 & Hs0 & Hd & Hs & Hdiff & Hdays & Hlabels & ->).
  apply map_cells_Ok in Hd as [_ Hd]; [|apply to_datetime_cell_silent].
  apply map_cells_Ok in Hs as [_ Hs]; [|apply to_datetime_cell_silent].
  assert (Hcols := columns_engineered df d0 s0 d s days labels Hd0 Hs0).
  split_and!.
  - intros col Hcol. by apply getitem_engineered_other.
  - intros col [<-|[<-|[]]].
    + exists d0, d. by rewrite getitem_engineered_delivered.
    + exists s0, s. by rewrite getitem_engineered_scheduled.
  - done.
  - intros Hdd Hdl. rewrite Hcols. unfold has_column in Hdd, Hdl.
    rewrite (with_name_new _ _ Hdd), with_name_new, <- app_assoc; [done|].
    rewrite existsb_app, Hdl. reflexivity.
Qed.

(** *** When the feature engineer succeeds *)







Lemma engineered_delay_numeric df out df' :
  feature_engineer parse_str parse_num df = (out, Ok df') ->
  exists delay, getitem df' "delivery_delay" = Some delay /\ is_numeric delay = true.
Proof.
  intros H.
  apply feature_engineer_Ok in H
    as (d0 & s0 & d & s & diff & days & labels
        & -> & Hd0 & Hs0 & Hd & Hs & Hdiff & Hdays & Hlabels & ->).
  exists days. split; [apply getitem_engineered_delay|].
  apply map_cells_Ok in Hdays as [_ Hdays]; [|apply days_cell_silent].
  unfold is_numeric. clear -Hdays.
  induction Hdays as [|c c' ? ? Hc _ IH]; cbn [forallb]; [done|].
  rewrite IH, andb_true_r.
  revert Hc. destruct c; simpl; try discriminate; by intros [= <-].
Qed.

End DateProperties.

(** ** The Aggregator *)


#[global] Instance desc_total : Total desc.
Proof.
  intros a b. unfold desc.
  destruct (number_of a) as [p|], (number_of b) as [q|]; auto.
  rewrite !Qle_bool_iff. destruct (Qlt_le_dec p q) as [H|H]; auto.
  right. by apply Qlt_le_weak.
Qed.

#[global] Instance desc_trans : Transitive desc.
Proof.
  intros a b c. unfold desc.
  destruct (number_of a) as [p|], (number_of b) as [q|], (number_of c) as [r|];
    try done.
  rewrite !Qle_bool_iff. intros H1 H2. by apply Qle_trans with q.
Qed.

#[global] Instance by_desc_total j : Total (by_desc j).
Proof. intros a b. apply desc_total. Qed.

#[global] Instance by_desc_trans j : Transitive (by_desc j).
Proof. intros a b c. apply desc_trans. Qed.







Lemma cell_eqb_refl c : cell_eqb c c = true.
Proof.
  destruct c; simpl; try done.
  - apply String.eqb_refl.
  - by apply Qeq_bool_iff.
  - apply Z.eqb_refl.
  - apply Z.eqb_refl.
Qed.





(** The groups that are cut off rank after every group that is kept. *)
Lemma top_groups_are_top keys delay price value r r' :
  In r (top_groups keys delay price value) ->
  In r' (drop 10 (all_groups keys delay price value)) ->
  by_desc 0 r r'.
Proof.
  unfold top_groups, all_groups. set (l := merge_sort _ _). intros H1 H2.
  assert (Hs : StronglySorted (by_desc 0) l)
    by (apply StronglySorted_merge_sort; apply _).
  rewrite <- (take_drop 10 l) in Hs.
  eapply StronglySorted_app_1_elem_of; eauto; by apply list_elem_of_In.
Qed.

Lemma select_metrics df delay price value :
  getitem df "delivery_delay" = Some delay ->
  getitem df "Pack Price" = Some price ->
  getitem df "Line Item Value" = Some value ->
  select_columns df METRICS = ret [delay; price; value].
Proof.
  intros Hd Hp Hv. unfold METRICS. cbn [select_columns].
  by rewrite (column_ret _ _ _ Hd), (column_ret _ _ _ Hp), (column_ret _ _ _ Hv),
    !bind_ret_l.
Qed.

(** The aggregation returns [top_groups] whenever the grouping column and
    the three metric columns are there and the metrics are numeric. *)
Lemma top10_ret df by_ keys delay price value :
  getitem df by_ = Some keys ->
  getitem df "delivery_delay" = Some delay ->
  getitem df "Pack Price" = Some price ->
  getitem df "Line Item Value" = Some value ->
  is_numeric delay = true -> is_numeric price = true -> is_numeric value = true ->
  top10 df by_
  = ret {| index_name := by_; value_columns := METRICS;
           groups := top_groups keys delay price value |}.
Proof.
  intros Hk Hd Hp Hv Nd Np Nv. unfold top10, groupby_mean.
  rewrite (column_ret _ _ _ Hk), bind_ret_l, (select_metrics _ _ _ _ Hd Hp Hv), bind_ret_l.
  cbn [check_all_numeric]. unfold check_numeric. rewrite Nd, Np, Nv.
  by rewrite !bind_ret_l.
Qed.

(** A metric column that is missing makes the aggregation raise. *)
Lemma top10_missing_price df by_ keys delay :
  getitem df by_ = Some keys ->
  getitem df "delivery_delay" = Some delay ->
  getitem df "Pack Price" = None ->
  top10 df by_ = raise (KeyError "Pack Price").
Proof.
  intros Hk Hd Hp. unfold top10, groupby_mean, METRICS. cbn [select_columns].
  rewrite (column_ret _ _ _ Hk), bind_ret_l, (column_ret _ _ _ Hd), bind_ret_l.
  unfold column at 1. by rewrite Hp.
Qed.

(** ** One run of the script *)

Lemma completed_bind {A B} (m : M A) (k : A -> M B) :
  completed (bind m k)
  = match outcome m with Ok a => completed (k a) | Halt _ => false end.
Proof. destruct m as [o [a|h]]; simpl; [|done]. by destruct (k a). Qed.

Lemma no_chart_bind {A B} (m : M A) (k : A -> M B) :
  no_chart m = true -> (forall a, no_chart (k a) = true) -> no_chart (bind m k) = true.
Proof.
  unfold no_chart. destruct m as [o [a|h]]; simpl; [|done].
  intros Ho Hk. specialize (Hk a). destruct (k a) as [o' r]. simpl in *.
  by rewrite forallb_app, Ho, Hk.
Qed.

Lemma no_chart_silent {A} (m : M A) : shown m = [] -> no_chart m = true.
Proof. unfold no_chart. by intros ->. Qed.

Lemma map_cells_shown f s : silent f -> shown (map_cells f s) = [].
Proof.
  intros Hf. induction s as [|c s IH]; simpl; [done|].
  pose proof (Hf c) as Hc. destruct (f c) as [o [c'|h]]; simpl in *; subst o; [|done].
  destruct (map_cells f s) as [o [r|h]]; simpl in *; by subst o.
Qed.

Lemma series_sub_shown a b : shown (series_sub a b) = [].
Proof.
  revert b. induction a as [|x a IH]; intros [|y b]; simpl; try done.
  pose proof (sub_cell_silent x y) as Hc.
  destruct (sub_cell x y) as [o [c'|h]]; simpl in *; subst o; [|done].
  specialize (IH b). destruct (series_sub a b) as [o [r|h]]; simpl in *; by subst o.
Qed.

Lemma column_shown df col : shown (column df col) = [].
Proof. unfold column. by destruct (getitem df col). Qed.

Section AppProperties.

Variable parse_str : string -> parsed.
Variable parse_num : Q -> parsed.

Lemma parse_date_columns_no_chart cols df :
  no_chart (parse_date_columns parse_str parse_num cols df) = true.
Proof.
  revert df. induction cols as [|col cols IH]; intros df; cbn [parse_date_columns]; [done|].
  apply no_chart_bind; [|done].
  destruct (has_column col df); [|done].
  apply no_chart_bind; [apply no_chart_silent, column_shown|]. intros s.
  apply no_chart_bind; [|done].
  apply no_chart_silent, map_cells_shown, to_datetime_cell_silent.
Qed.

(** Reading and feature engineering never draw a chart. *)
Lemma feature_engineer_no_chart df :
  no_chart (feature_engineer parse_str parse_num df) = true.
Proof.
  unfold feature_engineer.
  apply no_chart_bind; [apply parse_date_columns_no_chart|]. intros df1.
  apply no_chart_bind; [apply no_chart_silent, column_shown|]. intros d.
  apply no_chart_bind; [apply no_chart_silent, column_shown|]. intros s.
  apply no_chart_bind; [apply no_chart_silent, series_sub_shown|]. intros diff.
  apply no_chart_bind; [apply no_chart_silent, map_cells_shown, days_cell_silent|].
  intros days.
  apply no_chart_bind; [apply no_chart_silent, column_shown|]. intros delay.
  apply no_chart_bind; [apply no_chart_silent, map_cells_shown, delay_label_silent|].
  done.
Qed.

(** When feature engineering halts, the run ends there: nothing of the
    selected page is rendered. *)
Lemma app_halts_at_load page df :
  completed (feature_engineer parse_str parse_num df) = false ->
  exists h, outcome (feature_engineer parse_str parse_num df) = Halt h /\
    app parse_str parse_num page (Some df)
    = (shown (feature_engineer parse_str parse_num df), Halt h).
Proof.
  unfold app, load.
  destruct (feature_engineer parse_str parse_num df) as [o [df'|h]]; [done|].
  intros _. by exists h.
Qed.

Lemma app_after_load page df df' :
  feature_engineer parse_str parse_num df = ret df' ->
  app parse_str parse_num page (Some df) = render_page page (Some df').
Proof. unfold app, load. intros ->. by rewrite !bind_ret_l. Qed.

Lemma missing_delivered df :
  has_column DELIVERED df = false ->
  feature_engineer parse_str parse_num df
  = ([Error "❌ Missing column: Delivered to Client Date"], Halt Stop).
Proof.
  intros H. unfold feature_engineer, DATE_COLUMNS. cbn [parse_date_columns].
  by rewrite H.
Qed.

Lemma missing_scheduled df d0 d :
  getitem df DELIVERED = Some d0 -> to_datetime parse_str parse_num d0 = ret d ->
  has_column SCHEDULED df = false ->
  feature_engineer parse_str parse_num df
  = ([Error "❌ Missing column: Scheduled Delivery Date"], Halt Stop).
Proof.
  intros Hd0 Hd H. unfold feature_engineer, DATE_COLUMNS. cbn [parse_date_columns].
  rewrite (proj2 (has_column_getitem DELIVERED df)) by eauto.
  rewrite (column_ret _ _ _ Hd0), bind_ret_l, Hd, !bind_ret_l.
  rewrite has_column_setitem, H. reflexivity.
Qed.

Lemma completed_bind_false {A B} (m : M A) (k : A -> M B) :
  completed m = false -> completed (bind m k) = false.
Proof. rewrite completed_bind. unfold completed. by destruct (outcome m). Qed.

(** The loop body of lines 29-34 on a column that holds an unparseable
    value. *)
Lemma parse_date_column_halts col rest df s c :
  getitem df col = Some s -> In c s ->
  completed (to_datetime_cell parse_str parse_num c) = false ->
  completed (parse_date_columns parse_str parse_num (col :: rest) df) = false.
Proof.
  intros Hs Hc Hbad. cbn [parse_date_columns].
  apply completed_bind_false.
  rewrite (proj2 (has_column_getitem col df)) by eauto.
  rewrite (column_ret _ _ _ Hs), bind_ret_l.
  apply completed_bind_false.
  by apply (map_cells_halts _ _ c (to_datetime_cell_silent parse_str parse_num)).
Qed.

Lemma unparseable_date_halts df col s c :
  In col DATE_COLUMNS -> getitem df col = Some s -> In c s ->
  completed (to_datetime_cell parse_str parse_num c) = false ->
  completed (feature_engineer parse_str parse_num df) = false.
Proof.
  intros Hcol Hs Hc Hbad. unfold feature_engineer. apply completed_bind_false.
  destruct Hcol as [<-|[<-|[]]].
  - by eapply parse_date_column_halts.
  - unfold DATE_COLUMNS. cbn [parse_date_columns]. rewrite completed_bind.
    match goal with |- match outcome ?m with _ => _ end = _ =>
      destruct m as [o [df1|h]] eqn:E end; [|done].
    cbn [outcome snd].
    assert (getitem df1 SCHEDULED = Some s) as Hs1.
    { destruct (has_column DELIVERED df); [|done].
      apply bind_Ok_inv in E as (? & d0 & ? & _ & E & _).
      apply bind_Ok_inv in E as (? & d & ? & _ & E & _).
      injection E as _ <-. by rewrite getitem_setitem_ne. }
    by apply (parse_date_column_halts SCHEDULED [] df1 s c).
Qed.

Lemma missing_column_halts df :
  has_column DELIVERED df = false \/ has_column SCHEDULED df = false ->
  completed (feature_engineer parse_str parse_num df) = false.
Proof.
  intros H. destruct (has_column DELIVERED df) eqn:Hd.
  - destruct H as [|Hs]; [done|].
    destruct (completed (feature_engineer parse_str parse_num df)) eqn:E; [|done].
    unfold completed in E.
    destruct (feature_engineer parse_str parse_num df) as [o [df'|h]] eqn:F; [|done].
    apply feature_engineer_Ok in F as (d0 & s0 & ? & ? & ? & ? & ? & _ & _ & Hs0 & _).
    apply has_column_false in Hs. congruence.
  - by rewrite missing_delivered.
Qed.

(** C3, amended. A date value that cannot be parsed stops the run while the
    table is read, whatever page is selected: no derived column is computed
    and no chart is drawn.  A missing date value does not: it is read as NaT,
    and its row gets the delay NaN and the label "Delayed". *)
Theorem unparseable_rejected_missing_kept page df :
  ((exists col s c, In col DATE_COLUMNS /\ getitem df col = Some s /\ In c s /\
       completed (to_datetime_cell parse_str parse_num c) = false) ->
   completed (feature_engineer parse_str parse_num df) = false /\
   completed (app parse_str parse_num page (Some df)) = false /\
   no_chart (app parse_str parse_num page (Some df)) = true) /\
  (forall out df', feature_engineer parse_str parse_num df = (out, Ok df') ->
   exists d0 s0 delay labels,
     getitem df DELIVERED = Some d0 /\ getitem df SCHEDULED = Some s0 /\
     getitem df' "delivery_delay" = Some delay /\
     getitem df' "Delay Label" = Some labels /\
     forall i cd cs, d0 !! i = Some cd -> s0 !! i = Some cs ->
       is_missing cd || is_missing cs = true ->
       delay !! i = Some NaN /\ labels !! i = Some (Str "Delayed")).
Proof.
  split.
  - intros (col & s & c & Hcol & Hs & Hc & Hbad).
    pose proof (unparseable_date_halts df col s c Hcol Hs Hc Hbad) as Hfe.
    destruct (app_halts_at_load page df Hfe) as (h & Hh & ->).
    split_and!; [done|done|apply feature_engineer_no_chart].
  - intros out df' H.
    destruct (engineered_rows _ _ _ _ _ H)
      as (d0 & s0 & delay & labels & Hd0 & Hs0 & Hdelay & Hlabels & _ & Hrows).
    exists d0, s0, delay, labels. split_and!; try done.
    intros i cd cs Hcd Hcs Hmiss.
    destruct (Hrows i cd cs Hcd Hcs) as (d & s & l & Hd & Hs & Hi & Hl & Hdl).
    assert (day_difference d s = NaN) as Hnan.
    { apply orb_true_iff in Hmiss as [Hm|Hm].
      - destruct cd; try done; simpl in Hd; by injection Hd as <-.
      - destruct cs; try done; simpl in Hs; injection Hs as <-; by destruct d. }
    rewrite Hnan in Hi, Hdl. simpl in Hdl. injection Hdl as <-. done.
Qed.

(** C4, amended. When "Delivered to Client Date" is absent, or when it is
    there, its values convert and "Scheduled Delivery Date" is absent, the run
    shows exactly one error naming the missing column and stops.  In every
    case of a missing date column the run halts and draws no chart. *)
Theorem missing_date_column_stops page df :
  (has_column DELIVERED df = false ->
   app parse_str parse_num page (Some df)
   = ([Error "❌ Missing column: Delivered to Client Date"], Halt Stop)) /\
  (forall d0, getitem df DELIVERED = Some d0 ->
   completed (to_datetime parse_str parse_num d0) = true ->
   has_column SCHEDULED df = false ->
   app parse_str parse_num page (Some df)
   = ([Error "❌ Missing column: Scheduled Delivery Date"], Halt Stop)) /\
  (has_column DELIVERED df = false \/ has_column SCHEDULED df = false ->
   completed (app parse_str parse_num page (Some df)) = false /\
   no_chart (app parse_str parse_num page (Some df)) = true).
Proof.
  split_and!.
  - intros H. unfold app, load. by rewrite (missing_delivered df H).
  - intros d0 Hd0 Hd Hs.
    assert (exists d, to_datetime parse_str parse_num d0 = ret d) as [d Hret].
    { unfold completed in Hd.
      pose proof (map_cells_shown _ d0 (to_datetime_cell_silent parse_str parse_num)) as Ho.
      unfold to_datetime in *.
      destruct (map_cells _ d0) as [o [d|h]]; [|done]. simpl in Ho. subst o. by exists d. }
    unfold app, load. by rewrite (missing_scheduled df d0 d Hd0 Hret Hs).
  - intros H. pose proof (missing_column_halts df H) as Hfe.
    destruct (app_halts_at_load page df Hfe) as (h & Hh & ->).
    split; [done|apply feature_engineer_no_chart].
Qed.

(** C7. With no dataset uploaded, "Welcome" and "Conclusion & Insights" render
    their title and static text; "Delay & Pricing Patterns" and "Top
    Contributors" show their title and a warning, stop, and draw no chart. *)
Theorem pages_without_dataset :
  app parse_str parse_num "Welcome" None
  = ([Title "🚚 Supply Chain Delay & Pricing Analysis"; Markdown WELCOME_TEXT], Ok tt) /\
  app parse_str parse_num "Conclusion & Insights" None
  = ([Title "Conclusion & Insights"; Markdown CONCLUSION_TEXT], Ok tt) /\
  app parse_str parse_num "Delay & Pricing Patterns" None
  = ([Title "Delay & Pricing Patterns"; Warning UPLOAD_WARNING], Halt Stop) /\
  app parse_str parse_num "Top Contributors" None
  = ([Title "Top Contributors to Delay & Cost"; Warning UPLOAD_WARNING], Halt Stop).
Proof. by split_and!. Qed.

End AppProperties.

(** ** The pages on an engineered table *)

Lemma outcome_bind {A B} (m : M A) (k : A -> M B) :
  outcome (bind m k)
  = match outcome m with Ok a => outcome (k a) | Halt h => Halt h end.
Proof. destruct m as [o [a|h]]; simpl; [|done]. by destruct (k a). Qed.


Lemma render_patterns df :
  render_page "Delay & Pricing Patterns" df = page_patterns df.
Proof.
  unfold render_page. generalize (page_patterns df), (page_top df). intros m1 m2.
  destruct m1 as [o [[]|h]]; simpl; by rewrite ?app_nil_r.
Qed.

Lemma render_top df : render_page "Top Contributors" df = page_top df.
Proof.
  unfold render_page. generalize (page_patterns df), (page_top df). intros m1 m2.
  destruct m2 as [o [[]|h]]; simpl; by rewrite ?app_nil_r.
Qed.

Lemma has_column_engineered df d s days labels col :
  has_column col (engineered df d s days labels)
  = has_column col df || String.eqb DELIVERED col || String.eqb SCHEDULED col
    || String.eqb "delivery_delay" col || String.eqb "Delay Label" col.
Proof. unfold engineered. by rewrite !has_column_setitem. Qed.

Lemma delay_plot_completes df :
  has_column "Delay Label" df = true -> has_column "delivery_delay" df = true ->
  outcome (delay_plot df) = Ok tt.
Proof. intros H1 H2. unfold delay_plot, px_box, px_column. by rewrite H1, H2. Qed.

Lemma pack_plot_skipped df : has_column "Shipment Mode" df = false -> pack_plot df = ret tt.
Proof. unfold pack_plot. by intros ->. Qed.

Lemma pack_plot_completes df :
  has_column "Delay Label" df = true -> has_column "Pack Price" df = true ->
  outcome (pack_plot df) = Ok tt.
Proof.
  intros H1 H2. unfold pack_plot, px_box, px_color, px_column.
  destruct (has_column "Shipment Mode" df); [|done]. by rewrite H1, H2.
Qed.

Lemma value_plot_raises df :
  has_column "Delay Label" df = true -> has_column "Line Item Value" df = false ->
  outcome (value_plot df) = Halt (Raise (ValueError "y" "Line Item Value")).
Proof. intros H1 H2. unfold value_plot, px_box, px_column. by rewrite H1, H2. Qed.

Lemma vendors_chart_skipped df : has_column "Vendor" df = false -> vendors_chart df = ret tt.
Proof. unfold vendors_chart. by intros ->. Qed.


Section PageProperties.

Variable parse_str : string -> parsed.
Variable parse_num : Q -> parsed.

(** C10. On "Delay & Pricing Patterns" the pack-price plot is skipped when the
    table has no "Shipment Mode" column, but the line-item-value plot is built
    whatever the columns are: on every table that passes feature engineering
    and has no "Line Item Value" column the run is aborted by an exception
    (ValueError on "Line Item Value", unless the pack-price plot has already
    raised for want of "Pack Price"). *)
Theorem value_plot_is_unguarded df out df' :
  feature_engineer parse_str parse_num df = (out, Ok df') ->
  has_column "Line Item Value" df = false ->
  (has_column "Shipment Mode" df' = false -> pack_plot df' = ret tt) /\
  completed (app parse_str parse_num "Delay & Pricing Patterns" (Some df)) = false /\
  (has_column "Shipment Mode" df = false \/ has_column "Pack Price" df = true ->
   outcome (app parse_str parse_num "Delay & Pricing Patterns" (Some df))
   = Halt (Raise (ValueError "y" "Line Item Value"))).
Proof.
  intros H Hliv. split; [apply pack_plot_skipped|].
  apply feature_engineer_Ok in H
    as (d0 & s0 & d & s & diff & days & labels
        & -> & Hd0 & Hs0 & Hd & Hs & Hdiff & Hdays & Hlabels & ->).
  rewrite (app_after_load _ _ _ _ _
             (feature_engineer_ret _ _ _ _ _ _ _ _ _ _ Hd0 Hs0 Hd Hs Hdiff Hdays Hlabels)).
  rewrite render_patterns. set (df' := engineered df d s days labels).
  assert (has_column "Delay Label" df' = true) as Hdl
    by (unfold df'; rewrite has_column_engineered; simpl; by rewrite !orb_true_r).
  assert (has_column "delivery_delay" df' = true) as Hdd
    by (unfold df'; rewrite has_column_engineered; simpl; by rewrite !orb_true_r).
  assert (has_column "Line Item Value" df' = false) as Hliv'
    by (unfold df'; rewrite has_column_engineered, Hliv; done).
  assert (outcome (page_patterns (Some df'))
          = match outcome (pack_plot df') with
            | Ok _ => Halt (Raise (ValueError "y" "Line Item Value"))
            | Halt h => Halt h
            end) as Hpage.
  { unfold page_patterns.
    do 3 (rewrite outcome_bind;
          cbn [outcome snd st_title st_markdown show require_dataset ret]).
    rewrite outcome_bind, (delay_plot_completes df' Hdl Hdd).
    by rewrite outcome_bind, (value_plot_raises df' Hdl Hliv'). }
  split.
  - unfold completed. rewrite Hpage. by destruct (outcome (pack_plot df')).
  - intros Hguard. rewrite Hpage.
    destruct Hguard as [Hsm|Hpp].
    + rewrite pack_plot_skipped; [done|].
      unfold df'. by rewrite has_column_engineered, Hsm.
    + rewrite pack_plot_completes; [done|done|].
      unfold df'. by rewrite has_column_engineered, Hpp.
Qed.



End PageProperties.

(** ** The script on concrete tables *)

Lemma day_difference_of_dates a b :
  day_difference (Ts (a * ns_per_day)) (Ts (b * ns_per_day)) = Num (inject_Z (a - b)).
Proof.
  unfold day_difference. do 2 f_equal.
  rewrite <- Z.mul_sub_distr_r. by apply Z.div_mul.
Qed.

(** C1. On every row of the table the feature engineer returns,
    delivery_delay is the whole-day difference of the delivered date minus
    the scheduled date (NaN when one of them is missing).  Scheduled
    2021-01-01 with delivered 2021-01-03 gives 2, the reversed dates
    give -2. *)
Theorem delivery_delay_is_day_difference :
  (forall parse_str parse_num df out df',
     feature_engineer parse_str parse_num df = (out, Ok df') ->
     exists d0 s0 delay,
       getitem df DELIVERED = Some d0 /\ getitem df SCHEDULED = Some s0 /\
       getitem df' "delivery_delay" = Some delay /\
       length delay = Nat.min (length d0) (length s0) /\
       forall i cd cs, d0 !! i = Some cd -> s0 !! i = Some cs ->
         exists d s,
           to_datetime_cell parse_str parse_num cd = ret d /\
           to_datetime_cell parse_str parse_num cs = ret s /\
           delay !! i = Some (day_difference d s)) /\
  (exists df',
     engineer [(SCHEDULED, [Str "2021-01-01"; Str "2021-01-03"]);
               (DELIVERED, [Str "2021-01-03"; Str "2021-01-01"])] = ret df' /\
     getitem df' "delivery_delay" = Some [Num 2; Num (-2)]).
Proof.
  split.
  - intros parse_str parse_num df out df' H.
    destruct (engineered_rows _ _ _ _ _ H)
      as (d0 & s0 & delay & labels & Hd0 & Hs0 & Hdelay & _ & Hlen & Hrows).
    exists d0, s0, delay. split_and!; try done.
    intros i cd cs Hcd Hcs.
    destruct (Hrows i cd cs Hcd Hcs) as (d & s & l & Hd & Hs & Hi & _).
    by exists d, s.
  - eexists. split; reflexivity.
Qed.

Lemma delivery_delay_of_shipments :
  engineer shipments = ([], Ok shipments_engineered) /\
  exists delay,
    getitem shipments_engineered "delivery_delay" = Some delay /\
    delay !! 3%nat = Some (Num 4).
Proof.
  split; [reflexivity|].
  destruct (proj1 delivery_delay_is_day_difference iso_date epoch_ns
              shipments [] shipments_engineered eq_refl)
    as (d0 & s0 & delay & Hd0 & Hs0 & Hdelay & _ & Hrows).
  exists delay. split; [done|].
  injection Hd0 as <-. injection Hs0 as <-.
  destruct (Hrows 3%nat (Str "2021-03-05") (Str "2021-03-01") eq_refl eq_refl)
    as (d & s & Hd & Hs & ->).
  injection Hd as <-. injection Hs as <-. reflexivity.
Defined.

Lemma delay_labels_of_shipments :
  engineer shipments = ([], Ok shipments_engineered) /\
  exists delay labels,
    getitem shipments_engineered "delivery_delay" = Some delay /\
    getitem shipments_engineered "Delay Label" = Some labels /\
    length labels = length delay /\
    forall i d, delay !! i = Some d ->
      exists l, labels !! i = Some (Str l) /\
                (l = "Early/On-Time" <-> at_most_zero d) /\
                (~ at_most_zero d -> l = "Delayed").
Proof.
  split; [reflexivity|].
  exact (delay_label_iff_delay_at_most_zero iso_date epoch_ns
           shipments [] shipments_engineered eq_refl).
Defined.

Lemma engineer_shipments_twice :
  engineer shipments = ([], Ok shipments_engineered) /\
  engineer shipments_engineered = ([], Ok shipments_engineered).
Proof.
  split; [reflexivity|].
  exact (feature_engineer_idempotent iso_date epoch_ns
           shipments [] shipments_engineered eq_refl).
Defined.

(** C8 as stated fails: the date columns do not keep their values, they are
    replaced by the parsed timestamps. *)
Lemma date_columns_are_replaced :
  engineer shipments = ([], Ok shipments_engineered) /\
  has_column DELIVERED shipments = true /\
  getitem shipments_engineered DELIVERED <> getitem shipments DELIVERED.
Proof. split_and!; [reflexivity|reflexivity|discriminate]. Qed.

Lemma frame_of_shipments :
  engineer shipments = ([], Ok shipments_engineered) /\
  getitem shipments_engineered "Pack Price" = getitem shipments "Pack Price" /\
  columns shipments_engineered = columns shipments ++ ["delivery_delay"; "Delay Label"].
Proof.
  split; [reflexivity|].
  destruct (feature_engineer_frame iso_date epoch_ns
              shipments [] shipments_engineered eq_refl)
    as (Hother & _ & _ & Hnew).
  split.
  - apply Hother. simpl. intros [H|[H|[H|[H|[]]]]]; discriminate.
  - by apply Hnew.
Defined.

(** C3 as stated fails: a missing date does not reject the dataset.  The
    row gets a delay (NaN) and a label, and the charts are drawn. *)
Lemma missing_date_is_not_rejected :
  getitem missing_date_shipments DELIVERED = Some [Str "2021-01-03"; NaN] /\
  engineer missing_date_shipments
  = ([], Ok [(SCHEDULED, [Ts 1609459200000000000; Ts 1609632000000000000]);
             (DELIVERED, [Ts 1609632000000000000; NaT]);
             ("Line Item Value", [Num 100; Num 40]);
             ("delivery_delay", [Num 2; NaN]);
             ("Delay Label", [Str "Delayed"; Str "Delayed"])]) /\
  completed (run_app "Delay & Pricing Patterns" (Some missing_date_shipments)) = true /\
  no_chart (run_app "Delay & Pricing Patterns" (Some missing_date_shipments)) = false.
Proof. by split_and!. Qed.

Lemma unparseable_date_of_shipments :
  completed (to_datetime_cell iso_date epoch_ns (Str "next week")) = false /\
  completed (run_app "Delay & Pricing Patterns" (Some unparseable_shipments)) = false /\
  no_chart (run_app "Delay & Pricing Patterns" (Some unparseable_shipments)) = true.
Proof.
  split; [reflexivity|].
  destruct (unparseable_rejected_missing_kept iso_date epoch_ns
              "Delay & Pricing Patterns" unparseable_shipments) as [H _].
  apply H. exists SCHEDULED, [Str "2021-01-01"; Str "next week"], (Str "next week").
  split_and!; [simpl; tauto|reflexivity|simpl; tauto|reflexivity].
Defined.

(** C4 as stated fails: when the delivered dates do not parse, the run is
    aborted by the parser before the scheduled column is looked for, and no
    message names the missing column. *)
Lemma missing_column_not_named :
  has_column SCHEDULED unparseable_delivered = false /\
  run_app "Welcome" (Some unparseable_delivered) = ([], Halt (Raise ParserError)).
Proof. by split. Qed.

Lemma missing_scheduled_column_of_shipments :
  has_column SCHEDULED delivered_only = false /\
  run_app "Top Contributors" (Some delivered_only)
  = ([Error "❌ Missing column: Scheduled Delivery Date"], Halt Stop).
Proof.
  split; [reflexivity|].
  destruct (missing_date_column_stops iso_date epoch_ns "Top Contributors" delivered_only)
    as (_ & H & _).
  by apply (H [Str "2021-01-03"]).
Defined.




Lemma patterns_page_without_line_item_value :
  has_column DELIVERED delivered_and_scheduled = true /\
  has_column SCHEDULED delivered_and_scheduled = true /\
  has_column "Line Item Value" delivered_and_scheduled = false /\
  outcome (run_app "Delay & Pricing Patterns" (Some delivered_and_scheduled))
  = Halt (Raise (ValueError "y" "Line Item Value")).
Proof.
  split_and!; [reflexivity..|].
  destruct (value_plot_is_unguarded iso_date epoch_ns delivered_and_scheduled []
              [(SCHEDULED, [Ts 1609459200000000000; Ts 1609632000000000000]);
               (DELIVERED, [Ts 1609632000000000000; Ts 1609459200000000000]);
               ("delivery_delay", [Num 2; Num (-2)]);
               ("Delay Label", [Str "Delayed"; Str "Early/On-Time"])]
              eq_refl eq_refl) as (_ & _ & H).
  apply H. by left.
Defined.

(** * Further properties of the script *)

(** ** Feature engineering *)

Lemma getitem_rectangular n df col s :
  rectangular n df -> getitem df col = Some s -> length s = n.
Proof.
  unfold rectangular. induction 1 as [|[k v] df Hv _ IH]; simpl; [done|].
  destruct (String.eqb k col); [by intros [= <-]|done].
Qed.

Lemma setitem_rectangular n df col s :
  rectangular n df -> length s = n -> rectangular n (setitem df col s).
Proof.
  unfold rectangular. intros H Hs. induction H as [|[k v] df Hv Hdf IH]; simpl.
  - constructor; [exact Hs|constructor].
  - destruct (String.eqb k col); constructor; first [exact Hs|done].
Qed.


Section FurtherDates.

Variable parse_str : string -> parsed.
Variable parse_num : Q -> parsed.


(** X2. A shipment is labelled "Delayed" exactly when it was delivered at
    least one full day (24 hours) after the scheduled time; a delivery later
    on the scheduled day is "Early/On-Time". *)
Theorem delayed_iff_a_full_day_late df out df' :
  feature_engineer parse_str parse_num df = (out, Ok df') ->
  exists d0 s0 labels,
    getitem df DELIVERED = Some d0 /\ getitem df SCHEDULED = Some s0 /\
    getitem df' "Delay Label" = Some labels /\
    forall i cd cs x y, d0 !! i = Some cd -> s0 !! i = Some cs ->
      to_datetime_cell parse_str parse_num cd = ret (Ts x) ->
      to_datetime_cell parse_str parse_num cs = ret (Ts y) ->
      labels !! i
      = Some (Str (if (y + ns_per_day <=? x)%Z then "Delayed" else "Early/On-Time")).
Proof.
  intros H.
  destruct (engineered_rows _ _ _ _ _ H)
    as (d0 & s0 & delay & labels & Hd0 & Hs0 & _ & Hlabels & _ & Hrows).
  exists d0, s0, labels. split_and!; try done.
  intros i cd cs x y Hcd Hcs Hx Hy.
  destruct (Hrows i cd cs Hcd Hcs) as (d & s & l & Hd & Hs & _ & Hl & Hdl).
  rewrite Hx in Hd. rewrite Hy in Hs. injection Hd as <-. injection Hs as <-.
  rewrite Hl. simpl in Hdl. injection Hdl as <-. do 2 f_equal.
  assert (Qle_bool (inject_Z ((x - y) / ns_per_day)) 0 = negb (y + ns_per_day <=? x)%Z)
    as ->.
  { pose proof (Z.div_mod (x - y) ns_per_day) as Hdiv.
    pose proof (Z.mod_pos_bound (x - y) ns_per_day) as Hmod.
    unfold ns_per_day in *.
    destruct (y + 86400000000000 <=? x)%Z eqn:E; simpl.
    - apply Z.leb_le in E. apply not_true_iff_false. rewrite Qle_bool_iff.
      change 0%Q with (inject_Z 0). rewrite <- Zle_Qle. lia.
    - apply Z.leb_gt in E. rewrite Qle_bool_iff.
      change 0%Q with (inject_Z 0). rewrite <- Zle_Qle. lia. }
  by destruct (y + ns_per_day <=? x)%Z.
Qed.

(** X3. Feature engineering keeps the table rectangular: when every column
    of the upload has [n] rows, so has every column of the result, the two
    derived columns included. *)
Theorem feature_engineer_rectangular n df out df' :
  rectangular n df ->
  feature_engineer parse_str parse_num df = (out, Ok df') ->
  rectangular n df'.
Proof.
  intros Hn H.
  apply feature_engineer_Ok in H
    as (d0 & s0 & d & s & diff & days & labels
        & _ & Hd0 & Hs0 & Hd & Hs & Hdiff & Hdays & Hlabels & ->).
  apply map_cells_Ok in Hd as [_ Hd]; [|apply to_datetime_cell_silent].
  apply map_cells_Ok in Hs as [_ Hs]; [|apply to_datetime_cell_silent].
  apply series_sub_Ok in Hdiff as (_ & Hlen & _).
  apply map_cells_Ok in Hdays as [_ Hdays]; [|apply days_cell_silent].
  apply map_cells_Ok in Hlabels as [_ Hlabels]; [|apply delay_label_silent].
  apply Forall2_length in Hd, Hs, Hdays, Hlabels.
  pose proof (getitem_rectangular _ _ _ _ Hn Hd0).
  pose proof (getitem_rectangular _ _ _ _ Hn Hs0).
  unfold engineered. repeat apply setitem_rectangular; try done; lia.
Qed.

End FurtherDates.

(** ** How reading the upload can end *)

Lemma quiet_bind {A B} (m : M A) (k : A -> M B) :
  quiet m -> (forall a, quiet (k a)) -> quiet (bind m k).
Proof.
  unfold quiet. destruct m as [o [a|h]]; simpl; intros [-> Hm] Hk.
  - specialize (Hk a). destruct (k a) as [o r]. simpl in *. by destruct Hk.
  - split; [done|]. intros [= ->]. by apply Hm.
Qed.

Lemma quiet_map_cells f s : (forall c, quiet (f c)) -> quiet (map_cells f s).
Proof.
  intros Hf. induction s as [|c s IH]; cbn [map_cells]; [done|].
  apply quiet_bind; [done|]. intros c'. apply quiet_bind; [done|]. by intros.
Qed.

Lemma quiet_column df col : quiet (column df col).
Proof. unfold column. by destruct (getitem df col). Qed.

Lemma quiet_sub_cell a b : quiet (sub_cell a b).
Proof. destruct a, b; simpl; try done. by destruct (in_timedelta_range _). Qed.

Lemma quiet_series_sub a b : quiet (series_sub a b).
Proof.
  revert b. induction a as [|x a IH]; intros [|y b]; cbn [series_sub]; try done.
  apply quiet_bind; [apply quiet_sub_cell|]. intros d.
  apply quiet_bind; [apply IH|]. by intros.
Qed.

Lemma quiet_days_cell c : quiet (days_cell c).
Proof. by destruct c. Qed.

Lemma quiet_delay_label c : quiet (delay_label c).
Proof. by destruct c. Qed.

Lemma quiet_cases {A} (m : M A) :
  quiet m -> (exists a, m = ret a) \/ (exists e, m = raise e).
Proof.
  destruct m as [o [a|[|e]]]; intros [Ho Hm]; simpl in *; subst o.
  - left. by exists a.
  - done.
  - right. by exists e.
Qed.

Section ReadOutcomes.

Variable parse_str : string -> parsed.
Variable parse_num : Q -> parsed.

Lemma quiet_to_datetime s : quiet (to_datetime parse_str parse_num s).
Proof.
  apply quiet_map_cells. intros c. destruct c; simpl; try done.
  - by destruct (parse_str s0).
  - by destruct (parse_num q).
Qed.

(** The loop of lines 29-34 ends in one of three ways. *)
Lemma parse_date_columns_outcomes df :
  (exists df1, parse_date_columns parse_str parse_num DATE_COLUMNS df = ret df1) \/
  (exists col, In col DATE_COLUMNS /\ has_column col df = false /\
     parse_date_columns parse_str parse_num DATE_COLUMNS df
     = ([Error ("❌ Missing column: " ++ col)], Halt Stop)) \/
  (exists e, parse_date_columns parse_str parse_num DATE_COLUMNS df = raise e).
Proof.
  unfold DATE_COLUMNS. cbn [parse_date_columns].
  destruct (has_column DELIVERED df) eqn:Hd.
  2:{ right. left. exists DELIVERED. split_and!; [simpl; tauto|done|done]. }
  destruct (proj1 (has_column_getitem _ _) Hd) as [d0 Hd0].
  rewrite (column_ret _ _ _ Hd0), bind_ret_l.
  destruct (quiet_cases _ (quiet_to_datetime d0)) as [[d ->]|[e ->]].
  2:{ right. right. by exists e. }
  rewrite !bind_ret_l, has_column_setitem.
  destruct (has_column SCHEDULED df) eqn:Hs; cbn [orb String.eqb Ascii.eqb Bool.eqb DELIVERED SCHEDULED].
  2:{ right. left. exists SCHEDULED. split_and!; [simpl; tauto|done|done]. }
  destruct (proj1 (has_column_getitem _ _) Hs) as [s0 Hs0].
  rewrite (column_ret _ SCHEDULED s0) by (by rewrite getitem_setitem_ne).
  rewrite bind_ret_l.
  destruct (quiet_cases _ (quiet_to_datetime s0)) as [[s ->]|[e ->]].
  - left. eexists. by rewrite !bind_ret_l.
  - right. right. by exists e.
Qed.

(** X4. Reading the upload ends in one of three ways: it returns the
    engineered table and shows nothing; or it shows exactly one error that
    names a date column the table lacks, and stops; or an exception aborts the
    run and nothing is shown.  [st.stop()] is never reached without the error
    message, and no message is shown when the table is returned. *)
Theorem feature_engineer_outcomes df :
  (exists df', feature_engineer parse_str parse_num df = ([], Ok df')) \/
  (exists col, In col DATE_COLUMNS /\ has_column col df = false /\
     feature_engineer parse_str parse_num df
     = ([Error ("❌ Missing column: " ++ col)], Halt Stop)) \/
  (exists e, feature_engineer parse_str parse_num df = ([], Halt (Raise e))).
Proof.
  unfold feature_engineer.
  destruct (parse_date_columns_outcomes df) as [[df1 ->]|[(col & Hcol & Hno & ->)|[e ->]]].
  - rewrite bind_ret_l.
    match goal with |- (exists df', ?m = _) \/ _ => assert (quiet m) as Hq end.
    { apply quiet_bind; [apply quiet_column|]. intros d.
      apply quiet_bind; [apply quiet_column|]. intros s.
      apply quiet_bind; [apply quiet_series_sub|]. intros diff.
      apply quiet_bind; [apply quiet_map_cells, quiet_days_cell|]. intros days.
      apply quiet_bind; [apply quiet_column|]. intros delay.
      apply quiet_bind; [apply quiet_map_cells, quiet_delay_label|]. by intros. }
    destruct (quiet_cases _ Hq) as [[df' ->]|[e ->]].
    + left. by exists df'.
    + right. right. by exists e.
  - right. left. exists col. by split_and!.
  - right. right. by exists e.
Qed.

(** X5. The static pages do not depend on the data, but they do depend on
    the upload being readable: with a table that passes feature engineering
    "Welcome" and "Conclusion & Insights" render exactly what they render
    without an upload; with a table that does not, the run ends while the
    table is read and nothing of the page is shown, not even its title. *)
Theorem static_pages_and_the_upload page df :
  page = "Welcome" \/ page = "Conclusion & Insights" ->
  (completed (feature_engineer parse_str parse_num df) = true ->
   app parse_str parse_num page (Some df) = app parse_str parse_num page None) /\
  (completed (feature_engineer parse_str parse_num df) = false ->
   completed (app parse_str parse_num page (Some df)) = false /\
   shown (app parse_str parse_num page (Some df))
   = shown (feature_engineer parse_str parse_num df) /\
   forall e, In e (shown (app parse_str parse_num page (Some df))) ->
     exists msg, e = Error msg).
Proof.
  intros Hpage. split.
  - intros Hc.
    destruct (feature_engineer_outcomes df) as [[df' H]|[(col & _ & _ & H)|[e H]]];
      rewrite H in Hc; try done.
    rewrite (app_after_load _ _ _ _ _ H).
    unfold app, load. rewrite bind_ret_l.
    destruct Hpage as [-> | ->]; reflexivity.
  - intros Hc.
    destruct (app_halts_at_load parse_str parse_num page df Hc) as (h & Hh & ->).
    split_and!; [done|done|]. cbn [shown fst].
    destruct (feature_engineer_outcomes df) as [[df' H]|[(col & _ & _ & H)|[e H]]];
      rewrite H; simpl; intros x Hx; try done.
    destruct Hx as [<-|[]]. eauto.
Qed.

End ReadOutcomes.

(** ** The Aggregator, further *)

Lemma ranked_ret df by_ keys delay price value :
  getitem df by_ = Some keys ->
  getitem df "delivery_delay" = Some delay ->
  getitem df "Pack Price" = Some price ->
  getitem df "Line Item Value" = Some value ->
  is_numeric delay = true -> is_numeric price = true -> is_numeric value = true ->
  ranked df by_
  = ret {| index_name := by_; value_columns := METRICS;
           groups := all_groups keys delay price value |}.
Proof.
  intros Hk Hd Hp Hv Nd Np Nv. unfold ranked, groupby_mean.
  rewrite (column_ret _ _ _ Hk), bind_ret_l, (select_metrics _ _ _ _ Hd Hp Hv), bind_ret_l.
  cbn [check_all_numeric]. unfold check_numeric. rewrite Nd, Np, Nv.
  by rewrite !bind_ret_l.
Qed.

(** X6. [.head(10)] keeps the top of the ranking: the rows returned are the
    first 10 rows of the ranked groups, every group that is cut off ranks
    after every group that is kept, and nothing is cut off when there are at
    most 10 groups. *)
Theorem head_keeps_the_top df by_ keys delay price value :
  getitem df by_ = Some keys ->
  getitem df "delivery_delay" = Some delay ->
  getitem df "Pack Price" = Some price ->
  getitem df "Line Item Value" = Some value ->
  is_numeric delay = true -> is_numeric price = true -> is_numeric value = true ->
  exists all,
    ranked df by_ = ret {| index_name := by_; value_columns := METRICS; groups := all |} /\
    top10 df by_
    = ret {| index_name := by_; value_columns := METRICS; groups := take 10 all |} /\
    (forall r r', In r (take 10 all) -> In r' (drop 10 all) -> by_desc 0 r r') /\
    (length all <= 10 -> take 10 all = all).
Proof.
  intros Hk Hd Hp Hv Nd Np Nv. exists (all_groups keys delay price value).
  split_and!.
  - by apply ranked_ret.
  - by apply top10_ret.
  - apply top_groups_are_top.
  - intros Hlen. by apply firstn_all2.
Qed.

Lemma cell_eqb_sym a b : cell_eqb a b = cell_eqb b a.
Proof.
  destruct a, b; simpl; try done.
  - apply String.eqb_sym.
  - destruct (Qeq_bool q q0) eqn:E1, (Qeq_bool q0 q) eqn:E2; try done.
    + apply Qeq_bool_iff, Qeq_sym, Qeq_bool_iff in E1. congruence.
    + apply Qeq_bool_iff, Qeq_sym, Qeq_bool_iff in E2. congruence.
  - apply Z.eqb_sym.
  - apply Z.eqb_sym.
Qed.

(** Two distinct values of a column never stand for the same key. *)
Lemma unique_distinct s a b :
  In a (unique s) -> In b (unique s) -> cell_eqb a b = true -> a = b.
Proof.
  revert a b. induction s as [|x s IH]; simpl; [done|].
  intros a b [<-|Ha] [<-|Hb] Hab; try done.
  - apply List.filter_In in Hb as [_ Hb]. by rewrite Hab in Hb.
  - apply List.filter_In in Ha as [_ Ha]. by rewrite cell_eqb_sym, Hab in Ha.
  - apply List.filter_In in Ha as [Ha _]. apply List.filter_In in Hb as [Hb _]. eauto.
Qed.

Lemma NoDup_List_filter {A} (p : A -> bool) (l : list A) :
  NoDup l -> NoDup (List.filter p l).
Proof.
  induction 1 as [|x l Hx _ IH]; simpl; [constructor|].
  destruct (p x); [|done]. constructor; [|done].
  rewrite list_elem_of_In, List.filter_In, <- list_elem_of_In. tauto.
Qed.

Lemma NoDup_unique s : NoDup (unique s).
Proof.
  induction s as [|x s IH]; simpl; constructor.
  - rewrite list_elem_of_In, List.filter_In, cell_eqb_refl. by intros [_ ?].
  - by apply NoDup_List_filter.
Qed.

Lemma NoDup_all_groups keys delay price value :
  NoDup (all_groups keys delay price value).
Proof.
  unfold all_groups. rewrite merge_sort_Permutation.
  change (NoDup ((fun k => (k, map (fun m => mean (group_cells keys m k)) [delay; price; value]))
                   <$> group_keys keys)).
  apply NoDup_fmap_2; [by intros a b [= ->]|].
  unfold group_keys. rewrite merge_sort_Permutation. apply NoDup_unique.
Qed.

Lemma all_groups_key_determines keys delay price value k1 ms1 k2 ms2 :
  In (k1, ms1) (all_groups keys delay price value) ->
  In (k2, ms2) (all_groups keys delay price value) ->
  cell_eqb k1 k2 = true -> (k1, ms1) = (k2, ms2).
Proof.
  unfold all_groups. intros H1 H2 He.
  apply (Permutation_in _ (merge_sort_Permutation _ _)) in H1, H2.
  apply in_map_iff in H1 as (a & [= -> <-] & Ha).
  apply in_map_iff in H2 as (b & [= -> <-] & Hb).
  unfold group_keys in Ha, Hb.
  apply (Permutation_in _ (merge_sort_Permutation _ _)) in Ha, Hb.
  by rewrite (unique_distinct _ _ _ Ha Hb He).
Qed.

(** X7. The aggregation has one row per key: no two rows of the result,
    wherever they stand, belong to the same vendor (or manager), numbers
    compared by value. *)
Theorem groups_have_distinct_keys df by_ keys delay price value :
  getitem df by_ = Some keys ->
  getitem df "delivery_delay" = Some delay ->
  getitem df "Pack Price" = Some price ->
  getitem df "Line Item Value" = Some value ->
  is_numeric delay = true -> is_numeric price = true -> is_numeric value = true ->
  exists rows,
    top10 df by_ = ret {| index_name := by_; value_columns := METRICS; groups := rows |} /\
    forall i j k1 ms1 k2 ms2,
      rows !! i = Some (k1, ms1) -> rows !! j = Some (k2, ms2) ->
      cell_eqb k1 k2 = true -> i = j.
Proof.
  intros Hk Hd Hp Hv Nd Np Nv. exists (top_groups keys delay price value).
  split; [by apply top10_ret|].
  intros i j k1 ms1 k2 ms2 Hi Hj He.
  assert (NoDup (top_groups keys delay price value)) as Hnd.
  { unfold top_groups.
    exact (sublist_NoDup _ _ (NoDup_all_groups keys delay price value) (sublist_take _ 10)). }
  assert ((k1, ms1) = (k2, ms2)) as Heq.
  { apply (all_groups_key_determines keys delay price value); [| |done].
    - apply list_elem_of_In, (subseteq_take 10), list_elem_of_lookup. eauto.
    - apply list_elem_of_In, (subseteq_take 10), list_elem_of_lookup. eauto. }
  rewrite <- Heq in Hj. by eapply NoDup_lookup.
Qed.

Section ManagerAggregation.

Variable parse_str : string -> parsed.
Variable parse_num : Q -> parsed.


End ManagerAggregation.

(** ** The data pages, further *)

Lemma delay_plot_shows df :
  has_column "Delay Label" df = true -> has_column "delivery_delay" df = true ->
  delay_plot df = ([PlotlyChart (delay_figure df)], Ok tt).
Proof. intros H1 H2. unfold delay_plot, px_box, px_column. by rewrite H1, H2. Qed.

Lemma pack_plot_shows df :
  has_column "Shipment Mode" df = true -> has_column "Pack Price" df = true ->
  has_column "Delay Label" df = true ->
  pack_plot df = ([PlotlyChart (pack_figure df)], Ok tt).
Proof.
  intros H1 H2 H3. unfold pack_plot, px_box, px_color, px_column.
  by rewrite H1, H2, H3.
Qed.

Lemma pack_plot_raises df :
  has_column "Shipment Mode" df = true -> has_column "Pack Price" df = false ->
  pack_plot df = raise (ValueError "y" "Pack Price").
Proof. intros H1 H2. unfold pack_plot, px_box, px_column. by rewrite H1, H2. Qed.

Lemma value_plot_shows df :
  has_column "Delay Label" df = true -> has_column "Line Item Value" df = true ->
  value_plot df = ([PlotlyChart (value_figure df)], Ok tt).
Proof.
  intros H1 H2. unfold value_plot, px_box, px_color, px_column. by rewrite H1, H2.
Qed.


Lemma top10_missing_value df by_ keys delay price :
  getitem df by_ = Some keys ->
  getitem df "delivery_delay" = Some delay ->
  getitem df "Pack Price" = Some price ->
  getitem df "Line Item Value" = None ->
  top10 df by_ = raise (KeyError "Line Item Value").
Proof.
  intros Hk Hd Hp Hv. unfold top10, groupby_mean, METRICS. cbn [select_columns].
  rewrite (column_ret _ _ _ Hk), bind_ret_l, (column_ret _ _ _ Hd), bind_ret_l.
  rewrite (column_ret _ _ _ Hp), bind_ret_l.
  unfold column at 1. by rewrite Hv.
Qed.



(** A chart block whose grouping column is there raises when a metric
    column is not. *)
Lemma chart_block_raises df by_ keys delay :
  getitem df by_ = Some keys ->
  getitem df "delivery_delay" = Some delay ->
  has_column "Pack Price" df = false \/ has_column "Line Item Value" df = false ->
  exists col,
    aggregate df by_ = raise (KeyError col) /\
    (has_column "Pack Price" df = false -> col = "Pack Price") /\
    (has_column "Pack Price" df = true -> col = "Line Item Value").
Proof.
  intros Hk Hd Hmiss. unfold aggregate.
  destruct (has_column "Pack Price" df) eqn:Hp.
  - destruct Hmiss as [|Hv]; [done|].
    apply has_column_getitem in Hp as [price Hp]. apply has_column_false in Hv.
    exists "Line Item Value". by rewrite (top10_missing_value _ _ _ _ _ Hk Hd Hp Hv).
  - apply has_column_false in Hp.
    exists "Pack Price". by rewrite (top10_missing_price _ _ _ _ Hk Hd Hp).
Qed.

Section DataPages.

Variable parse_str : string -> parsed.
Variable parse_num : Q -> parsed.

(** What feature engineering does to the set of columns. *)
Lemma engineered_columns df0 out df :
  feature_engineer parse_str parse_num df0 = (out, Ok df) ->
  feature_engineer parse_str parse_num df0 = ret df /\
  has_column "Delay Label" df = true /\ has_column "delivery_delay" df = true /\
  forall col, col <> "delivery_delay" -> col <> "Delay Label" ->
    has_column col df = has_column col df0.
Proof.
  intros H.
  apply feature_engineer_Ok in H
    as (d0 & s0 & d & s & diff & days & labels
        & -> & Hd0 & Hs0 & Hd & Hs & Hdiff & Hdays & Hlabels & ->).
  split_and!.
  - by eapply feature_engineer_ret.
  - rewrite has_column_engineered. simpl. by rewrite !orb_true_r.
  - rewrite has_column_engineered. simpl. by rewrite !orb_true_r.
  - intros col H1 H2. rewrite has_column_engineered.
    rewrite (proj2 (String.eqb_neq "delivery_delay" col)) by congruence.
    rewrite (proj2 (String.eqb_neq "Delay Label" col)) by congruence.
    rewrite !orb_false_r.
    destruct (String.eqb DELIVERED col) eqn:E1.
    { apply String.eqb_eq in E1 as <-.
      rewrite (proj2 (has_column_getitem DELIVERED df0)) by eauto. done. }
    destruct (String.eqb SCHEDULED col) eqn:E2.
    { apply String.eqb_eq in E2 as <-.
      rewrite (proj2 (has_column_getitem SCHEDULED df0)) by eauto. done. }
    by rewrite !orb_false_r.
Qed.

(** X9. With an upload that passes feature engineering and has a "Line Item
    Value" column, "Delay & Pricing Patterns" completes: it shows its title,
    its introduction, the delay box plot and the value box plot, all drawn
    from the engineered table, with the pack-price box plot between the two
    exactly when the table has a "Shipment Mode" column ("Pack Price" being
    there). *)
Theorem patterns_page_renders df0 out df :
  feature_engineer parse_str parse_num df0 = (out, Ok df) ->
  has_column "Line Item Value" df0 = true ->
  (has_column "Shipment Mode" df0 = false ->
   app parse_str parse_num "Delay & Pricing Patterns" (Some df0)
   = ([Title "Delay & Pricing Patterns";
       Markdown "Focus KPIs: **Delivery Delay**, **Pack Price**, **Line Item Value** vs Delay Status.";
       PlotlyChart (delay_figure df); PlotlyChart (value_figure df)], Ok tt)) /\
  (has_column "Shipment Mode" df0 = true -> has_column "Pack Price" df0 = true ->
   app parse_str parse_num "Delay & Pricing Patterns" (Some df0)
   = ([Title "Delay & Pricing Patterns";
       Markdown "Focus KPIs: **Delivery Delay**, **Pack Price**, **Line Item Value** vs Delay Status.";
       PlotlyChart (delay_figure df); PlotlyChart (pack_figure df);
       PlotlyChart (value_figure df)], Ok tt)).
Proof.
  intros H Hliv.
  destruct (engineered_columns _ _ _ H) as (Hret & Hdl & Hdd & Hsame).
  rewrite (app_after_load _ _ _ _ _ Hret), render_patterns.
  unfold page_patterns, require_dataset. rewrite bind_ret_l.
  rewrite (delay_plot_shows _ Hdl Hdd).
  rewrite (value_plot_shows df Hdl) by (by rewrite Hsame).
  split.
  - intros Hsm. rewrite (pack_plot_skipped df) by (by rewrite Hsame). reflexivity.
  - intros Hsm Hpp.
    rewrite (pack_plot_shows df) by (done || by rewrite Hsame). reflexivity.
Qed.

(** X10. The guard of the pack-price plot tests "Shipment Mode" only: on an
    upload that passes feature engineering, has a "Shipment Mode" column
    and no "Pack Price" column, "Delay & Pricing Patterns" is aborted by a
    ValueError on "Pack Price" after the delay box plot; the value box plot
    is not drawn, whether or not its column is there. *)
Theorem pack_plot_needs_pack_price df0 out df :
  feature_engineer parse_str parse_num df0 = (out, Ok df) ->
  has_column "Shipment Mode" df0 = true -> has_column "Pack Price" df0 = false ->
  app parse_str parse_num "Delay & Pricing Patterns" (Some df0)
  = ([Title "Delay & Pricing Patterns";
      Markdown "Focus KPIs: **Delivery Delay**, **Pack Price**, **Line Item Value** vs Delay Status.";
      PlotlyChart (delay_figure df)],
     Halt (Raise (ValueError "y" "Pack Price"))).
Proof.
  intros H Hsm Hpp.
  destruct (engineered_columns _ _ _ H) as (Hret & Hdl & Hdd & Hsame).
  rewrite (app_after_load _ _ _ _ _ Hret), render_patterns.
  unfold page_patterns, require_dataset. rewrite bind_ret_l.
  rewrite (delay_plot_shows _ Hdl Hdd).
  rewrite (pack_plot_raises df) by (by rewrite Hsame). reflexivity.
Qed.


(** X12. Only the grouping columns are guarded on "Top Contributors": on an
    upload that passes feature engineering and has a "Vendor" or a "Managed
    By" column but lacks "Pack Price" or "Line Item Value", the page shows
    its title and introduction and is then aborted by a KeyError on the
    first missing metric column; no chart is drawn, not even for a block
    that comes later. *)
Theorem top_contributors_needs_metrics df0 out df :
  feature_engineer parse_str parse_num df0 = (out, Ok df) ->
  has_column "Vendor" df0 = true \/ has_column "Managed By" df0 = true ->
  has_column "Pack Price" df0 = false \/ has_column "Line Item Value" df0 = false ->
  exists col,
    app parse_str parse_num "Top Contributors" (Some df0)
    = ([Title "Top Contributors to Delay & Cost";
        Markdown "Which vendors, managers, and shipment modes contribute most to delays and pricing issues?"],
       Halt (Raise (KeyError col))) /\
    (col = "Pack Price" \/ col = "Line Item Value") /\
    has_column col df0 = false.
Proof.
  intros H Hby Hmiss.
  destruct (engineered_delay_numeric _ _ _ _ _ H) as (delay & Hd & _).
  destruct (engineered_columns _ _ _ H) as (Hret & _ & _ & Hsame).
  rewrite <- (Hsame "Vendor"), <- (Hsame "Managed By") in Hby by done.
  assert (forall col,
            (has_column "Pack Price" df = false -> col = "Pack Price") /\
            (has_column "Pack Price" df = true -> col = "Line Item Value") ->
            (col = "Pack Price" \/ col = "Line Item Value") /\ has_column col df0 = false)
    as Hcol.
  { intros col (Hc1 & Hc2). destruct (has_column "Pack Price" df) eqn:Hp.
    - rewrite (Hc2 eq_refl). split; [by right|].
      rewrite <- (Hsame "Line Item Value") by done.
      rewrite <- (Hsame "Pack Price"), <- (Hsame "Line Item Value") in Hmiss by done.
      destruct Hmiss; congruence.
    - rewrite (Hc1 eq_refl). split; [by left|]. by rewrite <- (Hsame "Pack Price"). }
  rewrite <- (Hsame "Pack Price"), <- (Hsame "Line Item Value") in Hmiss by done.
  rewrite (app_after_load _ _ _ _ _ Hret), render_top.
  unfold page_top, require_dataset. rewrite bind_ret_l.
  destruct (has_column "Vendor" df) eqn:Hv.
  - destruct (proj1 (has_column_getitem _ _) Hv) as [keys Hk].
    destruct (chart_block_raises df "Vendor" keys delay Hk Hd Hmiss) as (col & Hagg & Hc).
    exists col. split; [|by apply Hcol].
    unfold vendors_chart. by rewrite Hv, Hagg.
  - destruct Hby as [|Hm]; [done|].
    destruct (proj1 (has_column_getitem _ _) Hm) as [keys Hk].
    destruct (chart_block_raises df "Managed By" keys delay Hk Hd Hmiss)
      as (col & Hagg & Hc).
    exists col. split; [|by apply Hcol].
    rewrite (vendors_chart_skipped _ Hv).
    unfold managers_chart. by rewrite Hm, Hagg.
Qed.

End DataPages.

(** ** Edge cases of the aggregation *)



Section EmptyUpload.

Variable parse_str : string -> parsed.
Variable parse_num : Q -> parsed.

(** X14. An upload with a header and no rows is accepted: feature
    engineering returns a table without rows, both derived columns empty,
    and an aggregation over it returns no group. *)
Theorem empty_upload_is_accepted df0 :
  rectangular 0 df0 ->
  has_column DELIVERED df0 = true -> has_column SCHEDULED df0 = true ->
  exists df,
    feature_engineer parse_str parse_num df0 = ret df /\
    rectangular 0 df /\
    getitem df "delivery_delay" = Some [] /\ getitem df "Delay Label" = Some [] /\
    forall by_,
      has_column by_ df = true ->
      has_column "Pack Price" df = true -> has_column "Line Item Value" df = true ->
      top10 df by_ = ret {| index_name := by_; value_columns := METRICS; groups := [] |}.
Proof.
  intros Hrect [d0 Hd0]%has_column_getitem [s0 Hs0]%has_column_getitem.
  assert (d0 = []) as -> by (apply nil_length_inv; by eapply getitem_rectangular).
  assert (s0 = []) as -> by (apply nil_length_inv; by eapply getitem_rectangular).
  exists (engineered df0 [] [] [] []).
  assert (rectangular 0 (engineered df0 [] [] [] [])) as Hrect'.
  { unfold engineered. by repeat apply setitem_rectangular. }
  split_and!.
  - by apply (feature_engineer_ret _ _ _ [] [] [] [] [] [] []).
  - done.
  - apply getitem_engineered_delay.
  - apply getitem_engineered_label.
  - intros by_ [keys Hk]%has_column_getitem [price Hp]%has_column_getitem
      [value Hv]%has_column_getitem.
    assert (keys = []) as -> by (apply nil_length_inv; by eapply getitem_rectangular).
    assert (price = []) as -> by (apply nil_length_inv; by eapply getitem_rectangular).
    assert (value = []) as -> by (apply nil_length_inv; by eapply getitem_rectangular).
    by rewrite (top10_ret _ _ [] [] [] [] Hk (getitem_engineered_delay _ _ _ _ _) Hp Hv).
Qed.

End EmptyUpload.

(** ** Which rows a group is made of *)




(** ** The further properties on concrete tables *)


Lemma labels_of_shipments_by_full_days :
  exists d0 s0 labels,
    getitem shipments DELIVERED = Some d0 /\ getitem shipments SCHEDULED = Some s0 /\
    getitem shipments_engineered "Delay Label" = Some labels /\
    forall i cd cs x y, d0 !! i = Some cd -> s0 !! i = Some cs ->
      to_datetime_cell iso_date epoch_ns cd = ret (Ts x) ->
      to_datetime_cell iso_date epoch_ns cs = ret (Ts y) ->
      labels !! i
      = Some (Str (if (y + ns_per_day <=? x)%Z then "Delayed" else "Early/On-Time")).
Proof.
  exact (delayed_iff_a_full_day_late iso_date epoch_ns shipments []
           shipments_engineered eq_refl).
Defined.

Lemma shipments_stay_rectangular :
  rectangular 5 shipments /\ rectangular 5 shipments_engineered.
Proof.
  assert (rectangular 5 shipments) as H by (repeat constructor).
  split; [done|].
  exact (feature_engineer_rectangular iso_date epoch_ns 5 shipments []
           shipments_engineered H eq_refl).
Defined.

Lemma welcome_with_shipments :
  run_app "Welcome" (Some shipments) = run_app "Welcome" None.
Proof.
  destruct (static_pages_and_the_upload iso_date epoch_ns "Welcome" shipments
              (or_introl eq_refl)) as [H _].
  exact (H eq_refl).
Defined.

Lemma head_of_shipments :
  exists all,
    ranked shipments_engineered "Vendor"
    = ret {| index_name := "Vendor"; value_columns := METRICS; groups := all |} /\
    top10 shipments_engineered "Vendor"
    = ret {| index_name := "Vendor"; value_columns := METRICS; groups := take 10 all |} /\
    (forall r r', In r (take 10 all) -> In r' (drop 10 all) -> by_desc 0 r r') /\
    (length all <= 10 -> take 10 all = all).
Proof.
  exact (head_keeps_the_top shipments_engineered "Vendor" _ _ _ _
           eq_refl eq_refl eq_refl eq_refl eq_refl eq_refl eq_refl).
Defined.

Lemma vendors_of_shipments_are_distinct :
  exists rows,
    top10 shipments_engineered "Vendor"
    = ret {| index_name := "Vendor"; value_columns := METRICS; groups := rows |} /\
    forall i j k1 ms1 k2 ms2,
      rows !! i = Some (k1, ms1) -> rows !! j = Some (k2, ms2) ->
      cell_eqb k1 k2 = true -> i = j.
Proof.
  exact (groups_have_distinct_keys shipments_engineered "Vendor" _ _ _ _
           eq_refl eq_refl eq_refl eq_refl eq_refl eq_refl eq_refl).
Defined.


Lemma patterns_page_of_shipments :
  run_app "Delay & Pricing Patterns" (Some shipments)
  = ([Title "Delay & Pricing Patterns";
      Markdown "Focus KPIs: **Delivery Delay**, **Pack Price**, **Line Item Value** vs Delay Status.";
      PlotlyChart (delay_figure shipments_engineered);
      PlotlyChart (pack_figure shipments_engineered);
      PlotlyChart (value_figure shipments_engineered)], Ok tt).
Proof.
  destruct (patterns_page_renders iso_date epoch_ns shipments []
              shipments_engineered eq_refl eq_refl) as [_ H].
  exact (H eq_refl eq_refl).
Defined.

Lemma patterns_page_without_pack_price :
  run_app "Delay & Pricing Patterns" (Some modes_without_price)
  = ([Title "Delay & Pricing Patterns";
      Markdown "Focus KPIs: **Delivery Delay**, **Pack Price**, **Line Item Value** vs Delay Status.";
      PlotlyChart (delay_figure modes_without_price_engineered)],
     Halt (Raise (ValueError "y" "Pack Price"))).
Proof.
  exact (pack_plot_needs_pack_price iso_date epoch_ns modes_without_price []
           modes_without_price_engineered eq_refl eq_refl eq_refl).
Defined.


Lemma top_contributors_without_pack_price :
  exists col,
    run_app "Top Contributors" (Some vendors_without_price)
    = ([Title "Top Contributors to Delay & Cost";
        Markdown "Which vendors, managers, and shipment modes contribute most to delays and pricing issues?"],
       Halt (Raise (KeyError col))) /\
    (col = "Pack Price" \/ col = "Line Item Value") /\
    has_column col vendors_without_price = false.
Proof.
  exact (top_contributors_needs_metrics iso_date epoch_ns vendors_without_price []
           vendors_without_price_engineered eq_refl (or_introl eq_refl)
           (or_introl eq_refl)).
Defined.


Lemma header_only_is_accepted :
  exists df,
    engineer header_only = ret df /\
    rectangular 0 df /\
    getitem df "delivery_delay" = Some [] /\ getitem df "Delay Label" = Some [] /\
    forall by_,
      has_column by_ df = true ->
      has_column "Pack Price" df = true -> has_column "Line Item Value" df = true ->
      top10 df by_ = ret {| index_name := by_; value_columns := METRICS; groups := [] |}.
Proof.
  assert (rectangular 0 header_only) as H by (repeat constructor).
  exact (empty_upload_is_accepted iso_date epoch_ns header_only H eq_refl eq_refl).
Defined.

